(** * Fine-Tune.ipynb: the QLoRA fine-tuning notebook, embedded and verified

    The notebook is a straight line of eleven code cells.  Each cell is
    embedded as a computation in a state-and-exception monad over the kernel
    state (the process environment, the notebook namespace, the files written
    so far, and the log of library calls).  The libraries the notebook calls
    (datasets, transformers, peft, trl, torch) are an interface, class
    [Library]; the cells are written against that interface, so that every
    statement about what the notebook hands to a library holds for every
    implementation of it. *)

From Stdlib Require Import QArith.
From stdpp Require Import gmap strings list fin_maps pretty.

Local Open Scope Z_scope.
Local Open Scope string_scope.

(** ** Values *)

(** A Python float literal, kept as the decimal it denotes:
    [digits] times ten to the [exponent] (3e-4 is 3 and -4; 0.03 is 3 and
    -2). *)
Record PyFloat := { digits : Z; exponent : Z }.

Definition float_value (f : PyFloat) : Q :=
  (inject_Z (digits f) * Qpower (10 # 1) (exponent f))%Q.

(** The attributes of the [torch] module that the notebook can name. *)
Inductive dtype := float16 | bfloat16 | float32.

Record BitsAndBytesConfig := {
  load_in_4bit : bool;
  bnb_4bit_quant_type : string;
  bnb_4bit_compute_dtype : dtype;
  bnb_4bit_use_double_quant : bool
}.

Record LoraConfig := {
  lora_alpha : Z;
  lora_dropout : PyFloat;
  target_modules : list string;
  r : Z;
  bias : string;
  task_type : string
}.

Record TrainingArguments := {
  output_dir : string;
  num_train_epochs : Z;
  per_device_train_batch_size : Z;
  auto_find_batch_size : bool;
  gradient_accumulation_steps : Z;
  optim : string;
  logging_steps : Z;
  save_steps : Z;
  learning_rate : PyFloat;
  weight_decay : PyFloat;
  fp16 : bool;
  bf16 : bool;
  max_grad_norm : PyFloat;
  max_steps : Z;
  warmup_ratio : PyFloat;
  group_by_length : bool;
  lr_scheduler_type : string;
  report_to : string
}.

(** ** Library objects, as far as the notebook reads or writes them *)

(** A dataset: the records of the JSON file, each a map from field to text. *)
Record Dataset := { rows : list (gmap string string) }.

(** A model parameter: the block it sits in, the weight matrix it belongs to
    (the name a [target_modules] entry is matched against), whether it is a
    base weight or one of the two low-rank factors, its [requires_grad] flag
    and the number of optimizer updates applied to it. *)
Inductive ParamKind := Base | LoraA | LoraB.

Record Param := {
  p_block : string;
  p_module : string;
  p_kind : ParamKind;
  requires_grad : bool;
  p_updates : nat
}.

Record PretrainedConfig := { use_cache : bool; pretraining_tp : Z }.

Record Model := {
  name_or_path : string;
  config : PretrainedConfig;
  parameters : list Param
}.

Record Tokenizer := {
  tok_name_or_path : string;
  eos_token : option string;
  pad_token : option string;
  padding_side : string
}.

Record Trainer := {
  tr_model : Model;
  tr_tokenizer : Tokenizer;
  tr_args : TrainingArguments;
  tr_sequences : list (list N)
}.

Inductive FileKind := WeightsFile | TokenizerFile | LogFile.

Global Instance FileKind_eq_dec : EqDecision FileKind.
Proof. solve_decision. Defined.

Global Instance FileKind_countable : Countable FileKind.
Proof.
  refine (inj_countable'
            (λ k, match k with
                  | WeightsFile => 0%nat
                  | TokenizerFile => 1%nat
                  | LogFile => 2%nat
                  end)
            (λ n, match n with
                  | 0%nat => WeightsFile
                  | 1%nat => TokenizerFile
                  | _ => LogFile
                  end) _).
  by intros [].
Defined.

(** The files written so far: (directory, kind of file). *)
Abbreviation FS := (gset (string * FileKind)).
Abbreviation Environ := (gmap string string).

(** What a notebook variable can hold. *)
Inductive PyVal :=
| VStr (s : string)
| VList (l : list string)
| VDtype (d : dtype)
| VDevice (d : string)
| VDataset (d : Dataset)
| VQuant (c : BitsAndBytesConfig)
| VModel (m : Model)
| VTokenizer (t : Tokenizer)
| VLora (c : LoraConfig)
| VArgs (a : TrainingArguments)
| VTrainer (t : Trainer).

(** ** Library calls *)

(** One entry per call the notebook makes into a library or into the process
    environment, with the argument values at the time of the call. *)
Inductive Event :=
| EvSetEnv (key value : string)
| EvEmptyCache
| EvLoadDataset (path data_files split : string)
| EvBitsAndBytesConfig (c : BitsAndBytesConfig)
| EvModelFromPretrained (env : Environ) (name : string)
    (quantization_config : BitsAndBytesConfig) (device_map : string)
| EvTokenizerFromPretrained (name : string) (trust_remote_code : bool)
| EvLoraConfig (c : LoraConfig)
| EvTrainingArguments (a : TrainingArguments)
| EvSFTTrainer (model : Model) (train_dataset : Dataset)
    (peft_config : LoraConfig) (dataset_text_field : string)
    (max_seq_length : Z) (tokenizer : Tokenizer) (args : TrainingArguments)
    (packing : bool)
| EvTrain (env : Environ) (t : Trainer)
| EvModelSave (m : Model) (dir : string)
| EvTokenizerSave (t : Tokenizer) (dir : string).

(** The fallible library entry points.  [None] is a fatal error raised by the
    library.  The model loader and the training loop run on the compute
    device and so see the process environment.  A call is taken by its
    interface: it returns a result and may write files; the notebook never
    reads an argument again after handing it to a call that could have
    changed it in place (it reads [trainer.model], not [model], after the
    trainer is built). *)
Class Library := {
  lib_load_dataset : string → string → string → option Dataset;
  lib_model_from_pretrained :
    Environ → string → BitsAndBytesConfig → string → option Model;
  lib_tokenizer_from_pretrained : string → bool → option Tokenizer;
  lib_SFTTrainer :
    Model → Dataset → LoraConfig → string → Z → Tokenizer →
    TrainingArguments → bool → option Trainer;
  lib_train : Environ → Trainer → FS → option (Trainer * FS);
  lib_model_save_pretrained : Model → string → FS → option FS;
  lib_tokenizer_save_pretrained : Tokenizer → string → FS → option FS
}.

(** ** Kernel state and the cell monad *)

Record State := {
  environ : Environ;
  globals : gmap string PyVal;
  fs : FS;
  trace : list Event
}.

Definition init : State :=
  {| environ := ∅; globals := ∅; fs := ∅; trace := [] |}.

Inductive PyErr :=
| NameError (x : string)
| TypeError (x : string)
| AttributeError (x : string)
| LibraryError (call : string).

Inductive result (A : Type) :=
| Ok (a : A)
| Raise (e : PyErr).
Arguments Ok {A} a.
Arguments Raise {A} e.

(** An exception ends the cell; the kernel state reached so far stays. *)
Definition M (A : Type) : Type := State → result A * State.

Definition ret {A} (a : A) : M A := λ s, (Ok a, s).

Definition bind {A B} (m : M A) (k : A → M B) : M B :=
  λ s, match m s with
       | (Ok a, s') => k a s'
       | (Raise e, s') => (Raise e, s')
       end.

Definition raise {A} (e : PyErr) : M A := λ s, (Raise e, s).

Notation "x <- m ;; k" := (bind m (λ x, k))
  (at level 100, m at next level, right associativity).
Notation "m ;;; k" := (bind m (λ _, k))
  (at level 100, right associativity).

(** Field updates of the kernel state. *)
Definition with_environ (f : Environ → Environ) (s : State) : State :=
  let (e, g, files, t) := s in
  {| environ := f e; globals := g; fs := files; trace := t |}.

Definition with_globals (f : gmap string PyVal → gmap string PyVal)
    (s : State) : State :=
  let (e, g, files, t) := s in
  {| environ := e; globals := f g; fs := files; trace := t |}.

Definition with_fs (f : FS → FS) (s : State) : State :=
  let (e, g, files, t) := s in
  {| environ := e; globals := g; fs := f files; trace := t |}.

Definition with_trace (f : list Event → list Event) (s : State) : State :=
  let (e, g, files, t) := s in
  {| environ := e; globals := g; fs := files; trace := f t |}.

Definition log (ev : Event) : M unit :=
  λ s, (Ok tt, with_trace (λ t, (t ++ [ev])%list) s).

(** [x = v] *)
Definition assign (x : string) (v : PyVal) : M unit :=
  λ s, (Ok tt, with_globals <[x := v]> s).

(** Reading a name: [NameError] when it is not bound. *)
Definition name (x : string) : M PyVal :=
  λ s, match globals s !! x with
       | Some v => (Ok v, s)
       | None => (Raise (NameError x), s)
       end.

Definition get_environ : M Environ := λ s, (Ok (environ s), s).
Definition get_fs : M FS := λ s, (Ok (fs s), s).

Definition put_fs (f : FS) : M unit :=
  λ s, (Ok tt, with_fs (λ _, f) s).

(** [os.environ[key] = value] *)
Definition environ_set (key value : string) : M unit :=
  log (EvSetEnv key value) ;;;
  λ s, (Ok tt, with_environ <[key := value]> s).

(** A library call: logged, then its outcome. *)
Definition call {A} (fn : string) (ev : Event) (outcome : option A) : M A :=
  log ev ;;;
  match outcome with
  | Some a => ret a
  | None => raise (LibraryError fn)
  end.

(** Typed reads of notebook variables.  A read also checks that the value
    is of the kind the statement goes on to use, and raises [TypeError]
    otherwise.  Python makes no such check at the read: there the misuse
    shows later, inside the call or the attribute access.  The properties
    below are about states in which every name read holds a value of the
    kind the notebook itself assigns to it; in a run in document order the
    check never fires, whatever the kernel held before
    ([run_reads_what_it_assigned]). *)
Definition name_str (x : string) : M string :=
  v <- name x ;; match v with VStr s => ret s | _ => raise (TypeError x) end.
Definition name_list (x : string) : M (list string) :=
  v <- name x ;; match v with VList l => ret l | _ => raise (TypeError x) end.
Definition name_dtype (x : string) : M dtype :=
  v <- name x ;; match v with VDtype d => ret d | _ => raise (TypeError x) end.
Definition name_dataset (x : string) : M Dataset :=
  v <- name x ;; match v with VDataset d => ret d | _ => raise (TypeError x) end.
Definition name_quant (x : string) : M BitsAndBytesConfig :=
  v <- name x ;; match v with VQuant c => ret c | _ => raise (TypeError x) end.
Definition name_model (x : string) : M Model :=
  v <- name x ;; match v with VModel m => ret m | _ => raise (TypeError x) end.
Definition name_tokenizer (x : string) : M Tokenizer :=
  v <- name x ;; match v with VTokenizer t => ret t | _ => raise (TypeError x) end.
Definition name_lora (x : string) : M LoraConfig :=
  v <- name x ;; match v with VLora c => ret c | _ => raise (TypeError x) end.
Definition name_args (x : string) : M TrainingArguments :=
  v <- name x ;; match v with VArgs a => ret a | _ => raise (TypeError x) end.
Definition name_trainer (x : string) : M Trainer :=
  v <- name x ;; match v with VTrainer t => ret t | _ => raise (TypeError x) end.

(** ** The library calls of the notebook, as cell-monad operations *)

Section Notebook.
Context `{L : Library}.

(** [getattr(torch, attr)] *)
Definition torch_getattr (attr : string) : M PyVal :=
  if decide (attr = "float16") then ret (VDtype float16)
  else if decide (attr = "bfloat16") then ret (VDtype bfloat16)
  else if decide (attr = "float32") then ret (VDtype float32)
  else raise (AttributeError attr).

Definition torch_cuda_empty_cache : M unit := log EvEmptyCache.

Definition torch_device (id : string) : PyVal := VDevice id.

Definition load_dataset (path data_files split : string) : M Dataset :=
  call "load_dataset" (EvLoadDataset path data_files split)
       (lib_load_dataset path data_files split).

Definition new_BitsAndBytesConfig (c : BitsAndBytesConfig) : M BitsAndBytesConfig :=
  log (EvBitsAndBytesConfig c) ;;; ret c.

Definition new_LoraConfig (c : LoraConfig) : M LoraConfig :=
  log (EvLoraConfig c) ;;; ret c.

Definition new_TrainingArguments (a : TrainingArguments) : M TrainingArguments :=
  log (EvTrainingArguments a) ;;; ret a.

Definition AutoModelForCausalLM_from_pretrained
    (id : string) (quantization_config : BitsAndBytesConfig)
    (device_map : string) : M Model :=
  env <- get_environ ;;
  call "AutoModelForCausalLM.from_pretrained"
       (EvModelFromPretrained env id quantization_config device_map)
       (lib_model_from_pretrained env id quantization_config device_map).

Definition AutoTokenizer_from_pretrained
    (id : string) (trust_remote_code : bool) : M Tokenizer :=
  call "AutoTokenizer.from_pretrained"
       (EvTokenizerFromPretrained id trust_remote_code)
       (lib_tokenizer_from_pretrained id trust_remote_code).

Definition SFTTrainer (model : Model) (train_dataset : Dataset)
    (peft_config : LoraConfig) (dataset_text_field : string)
    (max_seq_length : Z) (tokenizer : Tokenizer) (args : TrainingArguments)
    (packing : bool) : M Trainer :=
  call "SFTTrainer"
       (EvSFTTrainer model train_dataset peft_config dataset_text_field
                     max_seq_length tokenizer args packing)
       (lib_SFTTrainer model train_dataset peft_config dataset_text_field
                       max_seq_length tokenizer args packing).

(** [t.train()]: the trainer object is updated in place and files may be
    written. *)
Definition train (x : string) : M unit :=
  t <- name_trainer x ;;
  env <- get_environ ;;
  f <- get_fs ;;
  out <- call "Trainer.train" (EvTrain env t) (lib_train env t f) ;;
  assign x (VTrainer out.1) ;;;
  put_fs out.2.

Definition model_save_pretrained (m : Model) (dir : string) : M unit :=
  f <- get_fs ;;
  f' <- call "PreTrainedModel.save_pretrained" (EvModelSave m dir)
             (lib_model_save_pretrained m dir f) ;;
  put_fs f'.

Definition tokenizer_save_pretrained (t : Tokenizer) (dir : string) : M unit :=
  f <- get_fs ;;
  f' <- call "PreTrainedTokenizer.save_pretrained" (EvTokenizerSave t dir)
             (lib_tokenizer_save_pretrained t dir f) ;;
  put_fs f'.

(** Attribute writes on the objects bound to notebook variables. *)
Definition set_use_cache (b : bool) (m : Model) : Model :=
  {| name_or_path := name_or_path m;
     config := {| use_cache := b; pretraining_tp := pretraining_tp (config m) |};
     parameters := parameters m |}.

Definition set_pretraining_tp (n : Z) (m : Model) : Model :=
  {| name_or_path := name_or_path m;
     config := {| use_cache := use_cache (config m); pretraining_tp := n |};
     parameters := parameters m |}.

Definition set_pad_token (p : option string) (t : Tokenizer) : Tokenizer :=
  {| tok_name_or_path := tok_name_or_path t; eos_token := eos_token t;
     pad_token := p; padding_side := padding_side t |}.

Definition set_padding_side (side : string) (t : Tokenizer) : Tokenizer :=
  {| tok_name_or_path := tok_name_or_path t; eos_token := eos_token t;
     pad_token := pad_token t; padding_side := side |}.

(** ** The cells, in document order

    A cell is the list of its statements.  The import statements of the
    first cell (lines 23 to 35) are left out, and with them the eleven
    names they bind ([os], [torch], [load_dataset],
    [AutoModelForCausalLM], [AutoTokenizer], [BitsAndBytesConfig],
    [TrainingArguments], [pipeline], [logging], [LoraConfig],
    [SFTTrainer]): a call goes to its library entry point without a
    lookup of the callee's name.  The embedding therefore covers the
    variables the notebook assigns and the calls it makes, in kernels where
    the imports of the first cell have run; it says nothing about which
    imported names are bound, nor about a cell run without them. *)

(** Cell 1. *)
Definition cell_environment : list (M unit) :=
  [ environ_set "PYTORCH_CUDA_ALLOC_CONF" "max_split_size_mb:512";
    torch_cuda_empty_cache ].

(** Cell 2. *)
Definition cell_names : list (M unit) :=
  [ assign "base_model" (VStr "deepseek-ai/deepseek-coder-6.7b-instruct");
    assign "new_model" (VStr "DeepSeek-6-7b-instruct-Verilog-caseif-V4-256-QKV") ].

(** Cell 3. *)
Definition cell_dataset : list (M unit) :=
  [ d <- load_dataset "json" "./Adapted_dataset 3.json" "train" ;;
    assign "dataset" (VDataset d) ].

(** Cell 4. *)
Definition cell_quant_config : list (M unit) :=
  [ (dt <- torch_getattr "float16" ;;
     assign "compute_dtype" dt);
    (compute_dtype <- name_dtype "compute_dtype" ;;
     c <- new_BitsAndBytesConfig
            {| load_in_4bit := true;
               bnb_4bit_quant_type := "nf4";
               bnb_4bit_compute_dtype := compute_dtype;
               bnb_4bit_use_double_quant := true |} ;;
     assign "quant_config" (VQuant c)) ].

(** Cell 5. *)
Definition cell_model : list (M unit) :=
  [ assign "gpu_id" (VStr "cuda:0");
    (gpu_id <- name_str "gpu_id" ;;
     assign "device" (torch_device gpu_id));
    (base_model <- name_str "base_model" ;;
     quant_config <- name_quant "quant_config" ;;
     m <- AutoModelForCausalLM_from_pretrained base_model quant_config "auto" ;;
     assign "model" (VModel m));
    (m <- name_model "model" ;;
     assign "model" (VModel (set_use_cache false m)));
    (m <- name_model "model" ;;
     assign "model" (VModel (set_pretraining_tp 1 m))) ].

(** Cell 6. *)
Definition cell_tokenizer : list (M unit) :=
  [ (base_model <- name_str "base_model" ;;
     t <- AutoTokenizer_from_pretrained base_model true ;;
     assign "tokenizer" (VTokenizer t));
    (t <- name_tokenizer "tokenizer" ;;
     assign "tokenizer" (VTokenizer (set_pad_token (eos_token t) t)));
    (t <- name_tokenizer "tokenizer" ;;
     assign "tokenizer" (VTokenizer (set_padding_side "right" t))) ].

(** Cell 7. *)
Definition cell_peft_params : list (M unit) :=
  [ assign "target_modules" (VList ["q_proj"; "k_proj"; "v_proj"]);
    (target_modules <- name_list "target_modules" ;;
     c <- new_LoraConfig
            {| lora_alpha := 256;
               lora_dropout := {| digits := 1; exponent := -1 |};
               target_modules := target_modules;
               r := 256;
               bias := "none";
               task_type := "CAUSAL_LM" |} ;;
     assign "peft_params" (VLora c)) ].

(** Cell 8. *)
Definition cell_training_params : list (M unit) :=
  [ a <- new_TrainingArguments
           {| output_dir := "./Trained_models";
              num_train_epochs := 1;
              per_device_train_batch_size := 5;
              auto_find_batch_size := false;
              gradient_accumulation_steps := 1;
              optim := "paged_adamw_32bit";
              logging_steps := 5;
              save_steps := 54486;
              learning_rate := {| digits := 3; exponent := -4 |};
              weight_decay := {| digits := 1; exponent := -3 |};
              fp16 := false;
              bf16 := true;
              max_grad_norm := {| digits := 3; exponent := -1 |};
              max_steps := -1;
              warmup_ratio := {| digits := 3; exponent := -2 |};
              group_by_length := true;
              lr_scheduler_type := "constant";
              report_to := "tensorboard" |} ;;
    assign "training_params" (VArgs a) ].

(** Cell 9. *)
Definition cell_trainer : list (M unit) :=
  [ model <- name_model "model" ;;
    dataset <- name_dataset "dataset" ;;
    peft_params <- name_lora "peft_params" ;;
    tokenizer <- name_tokenizer "tokenizer" ;;
    training_params <- name_args "training_params" ;;
    t <- SFTTrainer model dataset peft_params "text" 2048 tokenizer
                    training_params false ;;
    assign "trainer" (VTrainer t) ].

(** Cell 10. *)
Definition cell_train : list (M unit) := [ train "trainer" ].

(** Cell 11. *)
Definition cell_save : list (M unit) :=
  [ (t <- name_trainer "trainer" ;;
     new_model <- name_str "new_model" ;;
     model_save_pretrained (tr_model t) new_model);
    (t <- name_trainer "trainer" ;;
     new_model <- name_str "new_model" ;;
     tokenizer_save_pretrained (tr_tokenizer t) new_model) ].

Definition cells : list (list (M unit)) :=
  [ cell_environment; cell_names; cell_dataset; cell_quant_config; cell_model;
    cell_tokenizer; cell_peft_params; cell_training_params; cell_trainer;
    cell_train; cell_save ].

(** The statements of the notebook, top to bottom. *)
Definition statements : list (M unit) := concat cells.

(** Running statements in order; the first exception stops the run. *)
Fixpoint run (stmts : list (M unit)) : M unit :=
  match stmts with
  | [] => ret tt
  | c :: rest => c ;;; run rest
  end.

Definition notebook : M unit := run statements.

(** The kernel states a run passes through, one after each statement, up to
    and including the state in which an exception stopped it. *)
Fixpoint history (stmts : list (M unit)) (s : State)
    : list (result unit * State) :=
  match stmts with
  | [] => []
  | c :: rest =>
      match c s with
      | (Ok _, s') => (Ok tt, s') :: history rest s'
      | (Raise e, s') => [(Raise e, s')]
      end
  end.

End Notebook.

(** ** The libraries, as the specification describes them

    The code of datasets, transformers, peft and trl is not part of the
    notebook.  The instance below follows the component contracts of the
    specification (sections 3, 4 and 6); everything the specification leaves
    to the outside (what the files and the model hub hold, how text is
    tokenized, whether the device and the disk cope) is a field of [World]. *)

(** Modelled from the spec: the pre-trained model (2 item 3, 4.2), absent
    from the sources.  What the model hub holds for a model under a
    quantization scheme: its configuration and its weight matrices (block,
    name, [requires_grad] as loaded). *)
Record Checkpoint := {
  ck_config : PretrainedConfig;
  ck_weights : list (string * string * bool)
}.

(** Modelled from the spec: what the specification leaves to the outside
    of the pipeline (4.1, 4.2, 7): the dataset files, the model hub, the
    tokenizer, the device and the disk. *)
Record World := {
  w_load_dataset : string → string → string → option Dataset;
  w_hub : Environ → string → BitsAndBytesConfig → string → option Checkpoint;
  w_load_tokenizer : string → bool → option Tokenizer;
  w_tokenize : string → list N;
  w_pack : Z → list (list N) → list (list N);
  w_device_ok : Environ → Trainer → bool;
  w_log_dir : TrainingArguments → string;
  w_writable : string → bool
}.

Module SpecLib.

(** Modelled from the spec: the model loader (4.2), absent from the sources.
    A weight matrix of the pre-trained model, as loaded. *)
Definition base_weight (w : string * string * bool) : Param :=
  {| p_block := w.1.1; p_module := w.1.2; p_kind := Base;
     requires_grad := w.2; p_updates := 0 |}.

(** Modelled from the spec: the model loader (4.2), absent from the sources.
    "Materializes the pre-trained model under the quantization scheme";
    fatal when the hub has no such model, the flags are incompatible or
    the device is too small, all of which the world decides. *)
Definition load_model (w : World) (env : Environ) (id : string)
    (quantization_config : BitsAndBytesConfig) (device_map : string)
    : option Model :=
  ck ← w_hub w env id quantization_config device_map;
  Some {| name_or_path := id;
          config := ck_config ck;
          parameters := base_weight <$> ck_weights ck |}.

(** Modelled from the spec: adapter attachment (4.3), absent from the
    sources.  "Freezes all base weights". *)
Definition freeze (p : Param) : Param :=
  {| p_block := p_block p; p_module := p_module p; p_kind := p_kind p;
     requires_grad := false; p_updates := p_updates p |}.

(** Modelled from the spec: adapter attachment (4.3), absent from the
    sources.  The "trainable low-rank matrices" introduced at one weight
    matrix: the two factors of the low-rank update. *)
Definition lora_pair (p : Param) : list Param :=
  [ {| p_block := p_block p; p_module := p_module p; p_kind := LoraA;
       requires_grad := true; p_updates := 0 |};
    {| p_block := p_block p; p_module := p_module p; p_kind := LoraB;
       requires_grad := true; p_updates := 0 |} ].

(** Modelled from the spec: adapter attachment (4.3), absent from the
    sources.  A base weight matrix is targeted when the configuration
    names it. *)
Definition is_target (targets : list string) (p : Param) : bool :=
  match p_kind p with
  | Base => bool_decide (p_module p ∈ targets)
  | _ => false
  end.

(** Modelled from the spec: adapter attachment (4.3), absent from the
    sources.  "Freezes all base weights; introduces trainable low-rank
    matrices at each named target"; "a fatal error if a named target does
    not exist on the model". *)
Definition attach_adapters (c : LoraConfig) (m : Model) : option Model :=
  if forallb (λ t, existsb (is_target [t]) (parameters m)) (target_modules c)
  then Some {| name_or_path := name_or_path m;
               config := config m;
               parameters :=
                 (freeze <$> parameters m) ++
                 (filter (λ p, is_target (target_modules c) p) (parameters m)
                    ≫= lora_pair) |}
  else None.

(** Modelled from the spec: the training example (3), absent from the
    sources.  "A single JSON record with a text field used verbatim as a
    training sequence (up to a maximum token length; truncated beyond it)";
    a record without the field is fatal (8a). *)
Definition training_sequence (tokenize : string → list N) (field : string)
    (max_seq_length : Z) (row : gmap string string) : option (list N) :=
  text ← row !! field;
  Some (take (Z.to_nat max_seq_length) (tokenize text)).

(** Modelled from the spec: the trainer's intake of the dataset (3, 4.4),
    absent from the sources.  One sequence per record; the specification
    does not describe packing, which is left to the world. *)
Definition prepare_dataset (w : World) (d : Dataset) (field : string)
    (max_seq_length : Z) (packing : bool) : option (list (list N)) :=
  seqs ← mapM (training_sequence (w_tokenize w) field max_seq_length) (rows d);
  Some (if packing then w_pack w max_seq_length seqs else seqs).

(** Modelled from the spec: trainer construction (2 item 7, 4.3, 4.4),
    absent from the sources.  Composes model, dataset, adapter
    configuration, tokenizer and training configuration. *)
Definition construct_trainer (w : World) (model : Model) (d : Dataset)
    (peft_config : LoraConfig) (field : string) (max_seq_length : Z)
    (tokenizer : Tokenizer) (args : TrainingArguments) (packing : bool)
    : option Trainer :=
  m ← attach_adapters peft_config model;
  seqs ← prepare_dataset w d field max_seq_length packing;
  Some {| tr_model := m; tr_tokenizer := tokenizer; tr_args := args;
          tr_sequences := seqs |}.

(** Modelled from the spec: the trainer loop (4.4), absent from the sources.
    The number of optimizer steps of a run "for the configured number of
    epochs/steps". *)
Definition total_steps (a : TrainingArguments) (examples : nat) : nat :=
  if decide (0 < max_steps a) then Z.to_nat (max_steps a)
  else
    let per_step := per_device_train_batch_size a * gradient_accumulation_steps a in
    if decide (0 < per_step)
    then Z.to_nat (num_train_epochs a * ((Z.of_nat examples + per_step - 1) `div` per_step))
    else 0%nat.

(** Modelled from the spec: the trainer loop (4.4), absent from the sources.
    "Backpropagating only into adapter parameters, applying the optimizer
    step": a parameter is updated when it is trainable. *)
Definition optimizer_updates (steps : nat) (p : Param) : Param :=
  {| p_block := p_block p; p_module := p_module p; p_kind := p_kind p;
     requires_grad := requires_grad p;
     p_updates := if requires_grad p then (p_updates p + steps)%nat else p_updates p |}.

(** Modelled from the spec: the output directory layout (6), absent from the
    sources.  "A root training-output directory with periodic checkpoint
    subdirectories": one per multiple of [save_steps]. *)
Definition checkpoint_dirs (a : TrainingArguments) (steps : nat) : list string :=
  (λ k, output_dir a +:+ "/checkpoint-" +:+ pretty k) <$>
  filter (λ k : nat, 0 < save_steps a ∧ (Z.of_nat k `mod` save_steps a = 0))
         (seq 1 steps).

(** Modelled from the spec: the trainer loop (4.4), absent from the sources.
    "Periodically writing ... log records": one record per multiple of
    [logging_steps].  The specification does not say where they are kept;
    the world decides. *)
Definition log_files (w : World) (a : TrainingArguments) (steps : nat)
    : list (string * FileKind) :=
  (λ _, (w_log_dir w a, LogFile)) <$>
  filter (λ k : nat, 0 < logging_steps a ∧
                     (Z.of_nat k `mod` logging_steps a = 0))
         (seq 1 steps).

(** Modelled from the spec: the trainer loop (4.4), absent from the sources.
    "Iterates the dataset for the configured number of epochs/steps, ...
    applying the optimizer step, periodically writing checkpoints and log
    records"; fatal when the device does not cope, which the world
    decides. *)
Definition train_loop (w : World) (env : Environ) (t : Trainer) (f : FS)
    : option (Trainer * FS) :=
  if w_device_ok w env t then
    let steps := total_steps (tr_args t) (length (tr_sequences t)) in
    Some ({| tr_model :=
               {| name_or_path := name_or_path (tr_model t);
                  config := config (tr_model t);
                  parameters := optimizer_updates steps <$>
                                  parameters (tr_model t) |};
             tr_tokenizer := tr_tokenizer t;
             tr_args := tr_args t;
             tr_sequences := tr_sequences t |},
          f ∪ list_to_set ((λ d, (d, WeightsFile)) <$>
                           checkpoint_dirs (tr_args t) steps)
            ∪ list_to_set (log_files w (tr_args t) steps))
  else None.

(** Modelled from the spec: the explicit save calls (4.4, 6, 8b), absent
    from the sources.  The model save leaves a weights file in the
    directory, the tokenizer save leaves tokenizer files. *)
Definition save_file (w : World) (kind : FileKind) (dir : string) (f : FS)
    : option FS :=
  if w_writable w dir then Some ({[ (dir, kind) ]} ∪ f) else None.

End SpecLib.

(** Modelled from the spec: the libraries behind the notebook's calls
    (datasets, transformers, peft, trl), absent from the sources, put
    together from the components above. *)
Definition spec_library (w : World) : Library :=
  {| lib_load_dataset := w_load_dataset w;
     lib_model_from_pretrained := SpecLib.load_model w;
     lib_tokenizer_from_pretrained := w_load_tokenizer w;
     lib_SFTTrainer := SpecLib.construct_trainer w;
     lib_train := SpecLib.train_loop w;
     lib_model_save_pretrained := λ _, SpecLib.save_file w WeightsFile;
     lib_tokenizer_save_pretrained := λ _, SpecLib.save_file w TokenizerFile |}.

(** A small world in which every library call succeeds: a two-record
    dataset, a model with one attention block and an output head, and a
    tokenizer that maps a text to the code points of its characters. *)
Module Demo.

Definition corpus : Dataset :=
  {| rows := [ {[ "text" := "module m; endmodule" ]};
               {[ "text" := "case (s) endcase"; "id" := "2" ]} ] |}.

Definition checkpoint : Checkpoint :=
  {| ck_config := {| use_cache := true; pretraining_tp := 2 |};
     ck_weights := [ ("layers.0.self_attn", "q_proj", false);
                     ("layers.0.self_attn", "k_proj", false);
                     ("layers.0.self_attn", "v_proj", false);
                     ("layers.0.self_attn", "o_proj", false);
                     ("", "lm_head", true) ] |}.

Definition tok : Tokenizer :=
  {| tok_name_or_path := "deepseek-ai/deepseek-coder-6.7b-instruct";
     eos_token := Some "<|EOT|>";
     pad_token := None;
     padding_side := "left" |}.

Definition code_points (s : string) : list N :=
  Ascii.N_of_ascii <$> String.list_ascii_of_string s.

Definition world : World :=
  {| w_load_dataset := λ _ files _,
       if decide (files = "./Adapted_dataset 3.json") then Some corpus else None;
     w_hub := λ _ id _ _,
       if decide (id = "deepseek-ai/deepseek-coder-6.7b-instruct")
       then Some checkpoint else None;
     w_load_tokenizer := λ id _,
       if decide (id = tok_name_or_path tok) then Some tok else None;
     w_tokenize := code_points;
     w_pack := λ _ seqs, [concat seqs];
     w_device_ok := λ _ _, true;
     w_log_dir := λ a, output_dir a +:+ "/runs";
     w_writable := λ _, true |}.

Definition library : Library := spec_library world.

(** The state in which the whole notebook leaves the kernel. *)
Definition final : State := (notebook (L := library) init).2.

(** A used kernel: the state after a run, with the adapter and training
    configurations since rebound to other settings and a variable of the
    user's own. *)
Definition used : State :=
  with_globals
    (λ g, <["peft_params" :=
              VLora {| lora_alpha := 16;
                       lora_dropout := {| digits := 5; exponent := -2 |};
                       target_modules := ["o_proj"];
                       r := 8;
                       bias := "all";
                       task_type := "CAUSAL_LM" |}]>
          (<["training_params" := VStr "stale"]>
             (<["notes" := VStr "kept"]> g)))
    final.

(** The state in which a second run of the whole notebook, on the used
    kernel, leaves it. *)
Definition rerun : State := (notebook (L := library) used).2.

End Demo.

(** * Notions used in the statements *)

Section Notions.
Context `{L : Library}.

(** [P k x] for the [i]-th state of a history, counted from [k]. *)
Definition history_all (P : nat → result unit * State → Prop) (k : nat)
    (h : list (result unit * State)) : Prop :=
  ∀ i x, h !! i = Some x → P (k + i)%nat x.

(** The process environment after the first statement. *)
Definition alloc_conf : Environ :=
  {[ "PYTORCH_CUDA_ALLOC_CONF" := "max_split_size_mb:512" ]}.

(** The assignments to [os.environ] made so far. *)
Definition environ_writes (t : list Event) : list (string * string) :=
  omap (λ e, match e with EvSetEnv k v => Some (k, v) | _ => None end) t.

(** The ratio by which an adapter's low-rank update is scaled. *)
Definition lora_scaling (c : LoraConfig) : Q :=
  (inject_Z (lora_alpha c) / inject_Z (r c))%Q.

(** The quantization configurations constructed so far. *)
Definition quant_constructions (t : list Event) : list BitsAndBytesConfig :=
  omap (λ e, match e with EvBitsAndBytesConfig c => Some c | _ => None end) t.

(** The quantization configuration as the notebook writes it. *)
Definition declared_quant_config : BitsAndBytesConfig :=
  {| load_in_4bit := true;
     bnb_4bit_quant_type := "nf4";
     bnb_4bit_compute_dtype := float16;
     bnb_4bit_use_double_quant := true |}.

(** The steps of the pipeline; the two save calls are both [Save]. *)
Inductive Stage :=
| DatasetLoad | QuantConfig | ModelLoad | TokenizerLoad | AdapterConfig
| TrainingConfig | TrainerConstruction | Train | Save.

Global Instance Stage_eq_dec : EqDecision Stage.
Proof. solve_decision. Defined.

Definition stage (e : Event) : option Stage :=
  match e with
  | EvSetEnv _ _ | EvEmptyCache => None
  | EvLoadDataset _ _ _ => Some DatasetLoad
  | EvBitsAndBytesConfig _ => Some QuantConfig
  | EvModelFromPretrained _ _ _ _ => Some ModelLoad
  | EvTokenizerFromPretrained _ _ => Some TokenizerLoad
  | EvLoraConfig _ => Some AdapterConfig
  | EvTrainingArguments _ => Some TrainingConfig
  | EvSFTTrainer _ _ _ _ _ _ _ _ => Some TrainerConstruction
  | EvTrain _ _ => Some Train
  | EvModelSave _ _ | EvTokenizerSave _ _ => Some Save
  end.

Definition stages (t : list Event) : list Stage := omap stage t.

Definition pipeline_order : list Stage :=
  [ DatasetLoad; QuantConfig; ModelLoad; TokenizerLoad; AdapterConfig;
    TrainingConfig; TrainerConstruction; Train; Save; Save ].

(** The literals of the notebook: the two model names, the adapter
    configuration and the training configuration. *)
Definition base_id : string := "deepseek-ai/deepseek-coder-6.7b-instruct".

Definition new_id : string :=
  "DeepSeek-6-7b-instruct-Verilog-caseif-V4-256-QKV".

Definition declared_peft_params : LoraConfig :=
  {| lora_alpha := 256;
     lora_dropout := {| digits := 1; exponent := -1 |};
     target_modules := ["q_proj"; "k_proj"; "v_proj"];
     r := 256;
     bias := "none";
     task_type := "CAUSAL_LM" |}.

Definition declared_training_params : TrainingArguments :=
  {| output_dir := "./Trained_models";
     num_train_epochs := 1;
     per_device_train_batch_size := 5;
     auto_find_batch_size := false;
     gradient_accumulation_steps := 1;
     optim := "paged_adamw_32bit";
     logging_steps := 5;
     save_steps := 54486;
     learning_rate := {| digits := 3; exponent := -4 |};
     weight_decay := {| digits := 1; exponent := -3 |};
     fp16 := false;
     bf16 := true;
     max_grad_norm := {| digits := 3; exponent := -1 |};
     max_steps := -1;
     warmup_ratio := {| digits := 3; exponent := -2 |};
     group_by_length := true;
     lr_scheduler_type := "constant";
     report_to := "tensorboard" |}.

(** The trainer the notebook constructs, as a composition of library
    results. *)
Definition constructed (d : Dataset) (m0 : Model) (tk0 : Tokenizer)
    (t : Trainer) : Prop :=
  lib_load_dataset "json" "./Adapted_dataset 3.json" "train" = Some d ∧
  lib_model_from_pretrained alloc_conf base_id declared_quant_config "auto"
    = Some m0 ∧
  lib_tokenizer_from_pretrained base_id true = Some tk0 ∧
  lib_SFTTrainer (set_pretraining_tp 1 (set_use_cache false m0)) d
    declared_peft_params "text" 2048
    (set_padding_side "right" (set_pad_token (eos_token tk0) tk0))
    declared_training_params false = Some t.

End Notions.

(** What attachment makes of a model whose parameters are all base
    weights. *)
Definition adapted (targets : list string) (base ps : list Param) : Prop :=
  (∀ p, p ∈ ps → (requires_grad p = true ↔ p_kind p ≠ Base)) ∧
  (∀ p, p ∈ ps → p_kind p ≠ Base →
     p_module p ∈ targets ∧
     ∃ b, b ∈ base ∧ p_block p = p_block b ∧ p_module p = p_module b) ∧
  (∀ b, b ∈ base →
     ∃ p, p ∈ ps ∧ p_block p = p_block b ∧ p_module p = p_module b ∧
          p_kind p = Base ∧ requires_grad p = false ∧
          p_updates p = p_updates b) ∧
  (∀ b kind, b ∈ base → p_module b ∈ targets → kind ≠ Base →
     ∃ p, p ∈ ps ∧ p_block p = p_block b ∧ p_module p = p_module b ∧
          p_kind p = kind ∧ requires_grad p = true).

(** * The run, statement by statement *)

Section Run.
Context `{L : Library}.

Lemma name_Some x s v : globals s !! x = Some v → name x s = (Ok v, s).
Proof. unfold name. by intros ->. Qed.

Lemma name_None x s :
  globals s !! x = None → name x s = (Raise (NameError x), s).
Proof. unfold name. by intros ->. Qed.

(** A run of the first [n] statements ends in one of the states of the
    history: the one after statement [n] when nothing was raised, the one of
    the exception otherwise. *)
Lemma run_take_history stmts : ∀ n s r s',
  run (take (S n) stmts) s = (r, s') → stmts ≠ [] →
  ∃ i, history stmts s !! i = Some (r, s') ∧ (i ≤ n)%nat ∧
       (r = Ok tt → S i = S n `min` length stmts)%nat.
Proof.
  induction stmts as [|c rest IH]; intros n s r s' Hrun Hne; [done|].
  simpl in Hrun. unfold bind in Hrun. simpl.
  destruct (c s) as [[[]|e] s1].
  - destruct rest as [|c' rest'].
    + rewrite take_nil in Hrun. inversion Hrun; subst.
      exists 0%nat. repeat split; [lia|]. intros _. simpl. lia.
    + destruct n as [|n].
      * inversion Hrun; subst. exists 0%nat. repeat split. lia.
      * destruct (IH n s1 r s' Hrun) as (i & Hi & Hle & Hok); [done|].
        exists (S i). repeat split; [done | lia |].
        intros Hr. specialize (Hok Hr). simpl in *. lia.
  - inversion Hrun; subst. exists 0%nat. repeat split; [lia | done].
Qed.

Lemma history_all_nil P k : history_all P k [].
Proof. by intros i x. Qed.

Lemma history_all_step P k c rest s :
  (let '(r, s') := c s in
   P k (r, s') ∧
   match r with
   | Ok _ => history_all P (S k) (history rest s')
   | Raise _ => True
   end) →
  history_all P k (history (c :: rest) s).
Proof.
  intros H i x. simpl.
  destruct (c s) as [[[]|e] s1]; destruct H as [HP Hrest];
    destruct i as [|i]; simpl; intros Hx.
  - inversion Hx; subst. by rewrite Nat.add_0_r.
  - replace (k + S i)%nat with (S k + i)%nat by lia. by apply Hrest.
  - inversion Hx; subst. by rewrite Nat.add_0_r.
  - by rewrite lookup_nil in Hx.
Qed.

(** Every run of a prefix of the notebook satisfies what holds along the
    history of the whole notebook. *)
Lemma run_prefix_inv (P : nat → result unit * State → Prop) n r s :
  history_all P 1 (history statements init) →
  run (take n statements) init = (r, s) →
  (n = 0%nat ∧ r = Ok tt ∧ s = init) ∨
  (∃ k, (1 ≤ k ≤ n)%nat ∧ (r = Ok tt → k = n `min` 22)%nat ∧ P k (r, s)).
Proof.
  intros Hall Hrun. destruct n as [|n].
  - left. by inversion Hrun.
  - right. apply run_take_history in Hrun as (i & Hi & Hle & Hok); [|done].
    exists (S i). split; [lia|]. split; [exact Hok|].
    apply (Hall i _ Hi).
Qed.

End Run.

(** Symbolic execution of the notebook along its history.  Reads of names
    are resolved by evaluation, library calls by case analysis on their
    outcome; [tac] proves the property at each state reached. *)
Ltac head_reduce :=
  lazy head beta iota zeta delta
    -[name history_all lib_load_dataset lib_model_from_pretrained
      lib_tokenizer_from_pretrained lib_SFTTrainer lib_train
      lib_model_save_pretrained lib_tokenizer_save_pretrained].

Ltac plumb :=
  cbv beta iota zeta delta
    [with_globals with_environ with_fs with_trace
     environ globals fs trace app fst snd].

Ltac plumb_in H :=
  cbv beta iota zeta delta
    [with_globals with_environ with_fs with_trace
     environ globals fs trace app fst snd] in H.

Ltac exec_head :=
  head_reduce;
  repeat match goal with
  | |- context [name ?x ?st] =>
      let o := eval vm_compute in (globals st !! x) in
      lazymatch o with
      | Some ?v => rewrite (name_Some x st v ltac:(vm_compute; reflexivity))
      | None => rewrite (name_None x st ltac:(vm_compute; reflexivity))
      end;
      head_reduce
  | |- context [match ?o with Some a => ret a | None => raise _ end] =>
      let E := fresh "Ecall" in
      destruct o eqn:E;
      plumb_in E;
      try match goal with p : (Trainer * _)%type |- _ => destruct p end;
      head_reduce
  end.

Ltac symex tac :=
  lazymatch goal with
  | |- history_all _ _ (history [] _) => apply history_all_nil
  | |- history_all _ _ (history (_ :: _) _) =>
      apply history_all_step; exec_head;
      (split; [plumb; tac | head_reduce; try exact I; plumb; symex tac])
  end.

Ltac unfold_notebook :=
  let c := eval cbv [statements cells concat app cell_environment cell_names
                     cell_dataset cell_quant_config cell_model cell_tokenizer
                     cell_peft_params cell_training_params cell_trainer
                     cell_train cell_save] in statements in
  change statements with c; unfold init.

(** Nothing has been called in the initial state. *)
Ltac no_event :=
  intros;
  match goal with
  | H : _ ∈ trace init |- _ => by apply elem_of_nil in H
  end.

(** An event is in an explicit trace. *)
Ltac trace_has :=
  solve [repeat first [apply list_elem_of_here | apply list_elem_of_further]].

(** Reads of the namespace in the goal, evaluated. *)
Ltac lookup_eval :=
  repeat match goal with
  | |- context [@lookup string PyVal (gmap string PyVal) _ ?k ?m] =>
      let v := eval vm_compute in (m !! k) in
      let H := fresh in
      assert (H : m !! k = v) by (vm_compute; reflexivity);
      rewrite H; clear H
  end.

(** The routine side goals at a state reached by symbolic execution. *)
Ltac settle :=
  first [ trace_has | eassumption | by vm_compute
        | lookup_eval; first [ reflexivity | by eexists ] ].

(** A statement count that is too small for the property at hand. *)
Ltac too_early :=
  intros;
  match goal with
  | H : (_ ≤ _)%nat |- _ => exfalso; clear -H; lia
  end.

(** Membership of an event pattern in an explicit trace. *)
Ltac in_trace H :=
  repeat (apply elem_of_cons in H as [H|H]; [try discriminate H|]);
  try (by apply elem_of_nil in H).

(** * What the notebook hands to the libraries *)

Section Wiring.
Context `{L : Library}.

(** C1.  The LoraConfig and TrainingArguments objects handed to the
    SFTTrainer are the ones the notebook constructed and bound to
    [peft_params] and [training_params], and they hold the declared
    literals: rank 256, learning rate 3e-4 (three ten-thousandths), one
    epoch.  A run that gets past its nineteenth statement has handed them
    over. *)
Theorem trainer_receives_declared_values n res s :
  run (take n statements) init = (res, s) →
  (∀ m d pc f msl tk a pk, EvSFTTrainer m d pc f msl tk a pk ∈ trace s →
     EvLoraConfig pc ∈ trace s ∧
     EvTrainingArguments a ∈ trace s ∧
     globals s !! "peft_params" = Some (VLora pc) ∧
     globals s !! "training_params" = Some (VArgs a) ∧
     r pc = 256 ∧
     learning_rate a = {| digits := 3; exponent := -4 |} ∧
     (float_value (learning_rate a) == 3 # 10000)%Q ∧
     num_train_epochs a = 1) ∧
  (res = Ok tt → (19 ≤ n)%nat →
     ∃ m d pc tk a, EvSFTTrainer m d pc "text" 2048 tk a false ∈ trace s).
Proof.
  intros Hrun.
  eapply (run_prefix_inv (λ k x,
    (∀ m d pc f msl tk a pk,
       EvSFTTrainer m d pc f msl tk a pk ∈ trace x.2 →
       EvLoraConfig pc ∈ trace x.2 ∧
       EvTrainingArguments a ∈ trace x.2 ∧
       globals x.2 !! "peft_params" = Some (VLora pc) ∧
       globals x.2 !! "training_params" = Some (VArgs a) ∧
       r pc = 256 ∧
       learning_rate a = {| digits := 3; exponent := -4 |} ∧
       (float_value (learning_rate a) == 3 # 10000)%Q ∧
       num_train_epochs a = 1) ∧
    (x.1 = Ok tt → (19 ≤ k)%nat →
       ∃ m d pc tk a, EvSFTTrainer m d pc "text" 2048 tk a false ∈ trace x.2)))
    in Hrun as [(-> & -> & ->) | (k & Hk & Hlast & Hall & Hsome)].
  - split; [no_event | too_early].
  - simpl in Hall, Hsome. split; [exact Hall|].
    intros Hok Hn. apply Hsome; [done|]. rewrite (Hlast Hok). lia.
  - unfold_notebook.
    symex ltac:(split;
                [ intros ???????? Hin; in_trace Hin; inversion Hin; subst;
                  split_and!; settle
                | first [ too_early | by intros [=]
                        | intros _ _; do 5 eexists; trace_has ] ]).
Qed.

(** C4.  Once the model cell has run, [model] is bound to the handle the
    loader returned with use_cache switched to False and nothing else about
    its weights changed; once the tokenizer cell has run, [tokenizer] is
    bound to the handle loaded for the same identifier as the model, with
    the padding token set to its end-of-sequence token and padding side
    "right".  These are the handles the trainer is given. *)
Theorem loader_configures_model_and_tokenizer n res s :
  run (take n statements) init = (res, s) →
  (res = Ok tt → (11 ≤ n)%nat →
     ∃ m0 m,
       lib_model_from_pretrained alloc_conf base_id declared_quant_config
         "auto" = Some m0 ∧
       globals s !! "model" = Some (VModel m) ∧
       use_cache (config m) = false ∧
       name_or_path m = name_or_path m0 ∧
       parameters m = parameters m0) ∧
  (res = Ok tt → (15 ≤ n)%nat →
     ∃ tk0 tk,
       lib_tokenizer_from_pretrained base_id true = Some tk0 ∧
       globals s !! "tokenizer" = Some (VTokenizer tk) ∧
       pad_token tk = eos_token tk ∧
       eos_token tk = eos_token tk0 ∧
       padding_side tk = "right" ∧
       tok_name_or_path tk = tok_name_or_path tk0) ∧
  (∀ m d pc f msl tk a pk, EvSFTTrainer m d pc f msl tk a pk ∈ trace s →
     use_cache (config m) = false ∧
     pad_token tk = eos_token tk ∧
     padding_side tk = "right") ∧
  (∀ env id qc dm id' trust,
     EvModelFromPretrained env id qc dm ∈ trace s →
     EvTokenizerFromPretrained id' trust ∈ trace s →
     id' = id ∧ globals s !! "base_model" = Some (VStr id)).
Proof.
  intros Hrun.
  eapply (run_prefix_inv (λ k x,
    (x.1 = Ok tt → (11 ≤ k)%nat →
       ∃ m0 m,
         lib_model_from_pretrained alloc_conf base_id declared_quant_config
           "auto" = Some m0 ∧
         globals x.2 !! "model" = Some (VModel m) ∧
         use_cache (config m) = false ∧
         name_or_path m = name_or_path m0 ∧
         parameters m = parameters m0) ∧
    (x.1 = Ok tt → (15 ≤ k)%nat →
       ∃ tk0 tk,
         lib_tokenizer_from_pretrained base_id true = Some tk0 ∧
         globals x.2 !! "tokenizer" = Some (VTokenizer tk) ∧
         pad_token tk = eos_token tk ∧
         eos_token tk = eos_token tk0 ∧
         padding_side tk = "right" ∧
         tok_name_or_path tk = tok_name_or_path tk0) ∧
    (∀ m d pc f msl tk a pk,
       EvSFTTrainer m d pc f msl tk a pk ∈ trace x.2 →
       use_cache (config m) = false ∧
       pad_token tk = eos_token tk ∧
       padding_side tk = "right") ∧
    (∀ env id qc dm id' trust,
       EvModelFromPretrained env id qc dm ∈ trace x.2 →
       EvTokenizerFromPretrained id' trust ∈ trace x.2 →
       id' = id ∧ globals x.2 !! "base_model" = Some (VStr id))))
    in Hrun as [(-> & -> & ->) | (k & Hk & Hlast & Hm & Ht & Htr & Hid)].
  - split_and!; [too_early | too_early | no_event | no_event].
  - simpl in Hm, Ht, Htr, Hid. split_and!; try done.
    + intros Hok Hn. apply Hm; [done|]. rewrite (Hlast Hok). lia.
    + intros Hok Hn. apply Ht; [done|]. rewrite (Hlast Hok). lia.
  - unfold_notebook.
    symex ltac:(split_and!;
                [ first [ too_early | by intros [=]
                        | intros _ _; do 2 eexists; split_and!; settle ]
                | first [ too_early | by intros [=]
                        | intros _ _; do 2 eexists; split_and!; settle ]
                | intros ???????? Hin; in_trace Hin; inversion Hin; subst;
                  split_and!; settle
                | intros ?????? Hin Hin'; in_trace Hin; inversion Hin; subst;
                  in_trace Hin'; inversion Hin'; subst;
                  split_and!; settle ]).
Qed.

(** C5.  At most one quantization configuration is ever constructed, and it
    enables 4-bit loading with type nf4, compute precision float16 and
    double quantization.  From the moment the model loader is called, in
    every later state of the run, that one configuration has been built,
    it is the one the loader was given, and [quant_config] is still bound to
    it: no statement of the notebook rebinds or changes it. *)
Theorem quant_config_built_once_and_kept n res s :
  run (take n statements) init = (res, s) →
  (quant_constructions (trace s) = [] ∨
   quant_constructions (trace s) = [declared_quant_config]) ∧
  (∀ c, globals s !! "quant_config" = Some (VQuant c) →
     load_in_4bit c = true ∧ bnb_4bit_quant_type c = "nf4" ∧
     bnb_4bit_compute_dtype c = float16 ∧ bnb_4bit_use_double_quant c = true) ∧
  (∀ env id qc dm, EvModelFromPretrained env id qc dm ∈ trace s →
     qc = declared_quant_config ∧
     quant_constructions (trace s) = [declared_quant_config] ∧
     globals s !! "quant_config" = Some (VQuant declared_quant_config)).
Proof.
  intros Hrun.
  eapply (run_prefix_inv (λ _ x,
    (quant_constructions (trace x.2) = [] ∨
     quant_constructions (trace x.2) = [declared_quant_config]) ∧
    (∀ c, globals x.2 !! "quant_config" = Some (VQuant c) →
       c = declared_quant_config) ∧
    (∀ env id qc dm, EvModelFromPretrained env id qc dm ∈ trace x.2 →
       qc = declared_quant_config ∧
       quant_constructions (trace x.2) = [declared_quant_config] ∧
       globals x.2 !! "quant_config" = Some (VQuant declared_quant_config))))
    in Hrun as [(-> & -> & ->) | (k & _ & _ & Honce & Hvar & Hload)].
  - split_and!; [by left | by intros c [=] | no_event].
  - simpl in Honce, Hvar, Hload. split_and!; [done | | done].
    intros c Hc. by rewrite (Hvar c Hc).
  - unfold_notebook.
    symex ltac:(split_and!;
                [ first [ by left | by right ]
                | intros c Hc; vm_compute in Hc; by inversion Hc
                | intros ???? Hin; in_trace Hin; inversion Hin; subst;
                  split_and!; by vm_compute ]).
Qed.

(** C6.  However far a run gets, the pipeline steps it has taken are an
    initial segment of: dataset load, quantization config, model load,
    tokenizer load, adapter config, training config, trainer construction,
    train, save (model, then tokenizer); a run of the whole notebook that
    raises nothing takes them all.  When the trainer is constructed, the
    dataset, the quantization configuration, the model, the tokenizer, the
    adapter configuration and the training configuration are all bound, and
    the trainer is given the bound values.  A save call is made only after
    the call to train() has returned normally, on the trained objects and
    into [new_model]. *)
Theorem pipeline_is_sequential n res s :
  run (take n statements) init = (res, s) →
  stages (trace s) `prefix_of` pipeline_order ∧
  (res = Ok tt → (22 ≤ n)%nat → stages (trace s) = pipeline_order) ∧
  (∀ m d pc f msl tk a pk, EvSFTTrainer m d pc f msl tk a pk ∈ trace s →
     globals s !! "dataset" = Some (VDataset d) ∧
     is_Some (globals s !! "quant_config") ∧
     globals s !! "model" = Some (VModel m) ∧
     globals s !! "tokenizer" = Some (VTokenizer tk) ∧
     globals s !! "peft_params" = Some (VLora pc) ∧
     globals s !! "training_params" = Some (VArgs a)) ∧
  (∀ m dir, EvModelSave m dir ∈ trace s →
     ∃ env t t' f, EvTrain env t ∈ trace s ∧
       lib_train env t ∅ = Some (t', f) ∧ m = tr_model t' ∧
       globals s !! "new_model" = Some (VStr dir)) ∧
  (∀ tk dir, EvTokenizerSave tk dir ∈ trace s →
     ∃ env t t' f m, EvTrain env t ∈ trace s ∧
       lib_train env t ∅ = Some (t', f) ∧ tk = tr_tokenizer t' ∧
       EvModelSave m dir ∈ trace s ∧
       globals s !! "new_model" = Some (VStr dir)).
Proof.
  intros Hrun.
  eapply (run_prefix_inv (λ k x,
    stages (trace x.2) `prefix_of` pipeline_order ∧
    (x.1 = Ok tt → (22 ≤ k)%nat → stages (trace x.2) = pipeline_order) ∧
    (∀ m d pc f msl tk a pk,
       EvSFTTrainer m d pc f msl tk a pk ∈ trace x.2 →
       globals x.2 !! "dataset" = Some (VDataset d) ∧
       is_Some (globals x.2 !! "quant_config") ∧
       globals x.2 !! "model" = Some (VModel m) ∧
       globals x.2 !! "tokenizer" = Some (VTokenizer tk) ∧
       globals x.2 !! "peft_params" = Some (VLora pc) ∧
       globals x.2 !! "training_params" = Some (VArgs a)) ∧
    (∀ m dir, EvModelSave m dir ∈ trace x.2 →
       ∃ env t t' f, EvTrain env t ∈ trace x.2 ∧
         lib_train env t ∅ = Some (t', f) ∧ m = tr_model t' ∧
         globals x.2 !! "new_model" = Some (VStr dir)) ∧
    (∀ tk dir, EvTokenizerSave tk dir ∈ trace x.2 →
       ∃ env t t' f m, EvTrain env t ∈ trace x.2 ∧
         lib_train env t ∅ = Some (t', f) ∧ tk = tr_tokenizer t' ∧
         EvModelSave m dir ∈ trace x.2 ∧
         globals x.2 !! "new_model" = Some (VStr dir))))
    in Hrun as [(-> & -> & ->)
               | (k & Hk & Hlast & Hpre & Hfull & Htr & Hsm & Hst)].
  - split_and!; [apply prefix_nil | too_early | no_event..].
  - simpl in Hpre, Hfull, Htr, Hsm, Hst. split_and!; try done.
    intros Hok Hn. apply Hfull; [done|]. rewrite (Hlast Hok). lia.
  - unfold_notebook.
    symex ltac:(split_and!;
                [ apply (bool_decide_unpack _); by vm_compute
                | first [ too_early | by intros [=] | by intros _ _ ]
                | intros ???????? Hin; in_trace Hin; inversion Hin; subst;
                  split_and!; settle
                | intros ?? Hin; in_trace Hin; inversion Hin; subst;
                  do 4 eexists; split_and!; settle
                | intros ?? Hin; in_trace Hin; inversion Hin; subst;
                  do 5 eexists; split_and!; settle ]).
Qed.

(** C8.  However far the run gets, once its first statement has executed
    the environment variable PYTORCH_CUDA_ALLOC_CONF holds exactly
    "max_split_size_mb:512" and keeps that value in every later state; the
    notebook writes the environment once, with that pair; and the model
    loader (and the training loop after it) is called in an environment that
    already has the variable at that value. *)
Theorem alloc_conf_set_before_model_load n res s :
  run (take n statements) init = (res, s) →
  ((1 ≤ n)%nat → environ s = alloc_conf) ∧
  ((1 ≤ n)%nat →
     environ s !! "PYTORCH_CUDA_ALLOC_CONF" = Some "max_split_size_mb:512") ∧
  ((1 ≤ n)%nat →
     environ_writes (trace s) =
       [("PYTORCH_CUDA_ALLOC_CONF", "max_split_size_mb:512")]) ∧
  (∀ env id qc dm, EvModelFromPretrained env id qc dm ∈ trace s →
     env !! "PYTORCH_CUDA_ALLOC_CONF" = Some "max_split_size_mb:512") ∧
  (∀ env t, EvTrain env t ∈ trace s →
     env !! "PYTORCH_CUDA_ALLOC_CONF" = Some "max_split_size_mb:512").
Proof.
  intros Hrun.
  eapply (run_prefix_inv (λ _ x,
    environ x.2 = alloc_conf ∧
    environ_writes (trace x.2) =
      [("PYTORCH_CUDA_ALLOC_CONF", "max_split_size_mb:512")] ∧
    (∀ env id qc dm, EvModelFromPretrained env id qc dm ∈ trace x.2 →
       env = alloc_conf) ∧
    (∀ env t, EvTrain env t ∈ trace x.2 → env = alloc_conf)))
    in Hrun as [(-> & -> & ->) | (k & Hk & _ & Henv & Hw & Hload & Htrain)].
  - split_and!; try lia; no_event.
  - simpl in Henv, Hw, Hload, Htrain. split_and!; intros.
    + exact Henv.
    + by rewrite Henv.
    + exact Hw.
    + by rewrite (Hload _ _ _ _ H).
    + by rewrite (Htrain _ _ H).
  - unfold_notebook.
    symex ltac:(split_and!;
                [ reflexivity | reflexivity
                | intros ???? Hin; in_trace Hin; by inversion Hin
                | intros ?? Hin; in_trace Hin; by inversion Hin ]).
Qed.

(** C9.  Every tokenizer load the notebook makes passes
    trust_remote_code=True (and the base model's identifier), and a run that
    gets past its thirteenth statement has made that call. *)
Theorem tokenizer_trusts_remote_code n res s :
  run (take n statements) init = (res, s) →
  (∀ id trust, EvTokenizerFromPretrained id trust ∈ trace s →
     trust = true ∧ id = "deepseek-ai/deepseek-coder-6.7b-instruct") ∧
  (res = Ok tt → (13 ≤ n)%nat →
     EvTokenizerFromPretrained "deepseek-ai/deepseek-coder-6.7b-instruct" true
       ∈ trace s).
Proof.
  intros Hrun.
  eapply (run_prefix_inv (λ k x,
    (∀ id trust, EvTokenizerFromPretrained id trust ∈ trace x.2 →
       trust = true ∧ id = "deepseek-ai/deepseek-coder-6.7b-instruct") ∧
    (x.1 = Ok tt → (13 ≤ k)%nat →
       EvTokenizerFromPretrained "deepseek-ai/deepseek-coder-6.7b-instruct" true
         ∈ trace x.2)))
    in Hrun as [(-> & -> & ->) | (k & Hk & Hlast & Hall & Hsome)].
  - split; [no_event | too_early].
  - simpl in Hall, Hsome. split; [exact Hall|].
    intros Hok Hn. apply Hsome; [done|]. rewrite (Hlast Hok). lia.
  - unfold_notebook.
    symex ltac:(split;
                [ intros ?? Hin; in_trace Hin; by inversion Hin
                | first [ too_early | by intros [=] | intros _ _; trace_has ] ]).
Qed.

(** C10.  Whatever adapter configuration the notebook constructs, binds to
    [peft_params] or hands to the trainer has lora_alpha equal to the rank,
    both 256, so its scaling ratio lora_alpha / r is 1; it names the three
    targets and nothing that would set the ratio per module. *)
Theorem lora_alpha_equals_rank n res s :
  run (take n statements) init = (res, s) →
  ∀ c,
    EvLoraConfig c ∈ trace s ∨
    globals s !! "peft_params" = Some (VLora c) ∨
    (∃ m d f msl tk a pk, EvSFTTrainer m d c f msl tk a pk ∈ trace s) →
    lora_alpha c = r c ∧ r c = 256 ∧ (lora_scaling c == 1)%Q ∧
    target_modules c = ["q_proj"; "k_proj"; "v_proj"].
Proof.
  intros Hrun.
  eapply (run_prefix_inv (λ _ x, ∀ c,
    EvLoraConfig c ∈ trace x.2 ∨
    globals x.2 !! "peft_params" = Some (VLora c) ∨
    (∃ m d f msl tk a pk, EvSFTTrainer m d c f msl tk a pk ∈ trace x.2) →
    lora_alpha c = r c ∧ r c = 256 ∧ (lora_scaling c == 1)%Q ∧
    target_modules c = ["q_proj"; "k_proj"; "v_proj"]))
    in Hrun as [(-> & -> & ->) | (k & _ & _ & Hall)].
  - intros c [Hin | [Hin | (?&?&?&?&?&?&?&Hin)]];
      [no_event | by vm_compute in Hin | no_event].
  - exact Hall.
  - unfold_notebook.
    symex ltac:(intros c [Hin | [Hin | (?&?&?&?&?&?&?&Hin)]];
                [ in_trace Hin; by inversion Hin
                | vm_compute in Hin; by inversion Hin
                | in_trace Hin; by inversion Hin ]).
Qed.

(** Whenever [trainer] is bound, it is bound to the trainer the library
    constructed from the notebook's inputs, or to what train() made of it. *)
Lemma trainer_provenance n res s t :
  run (take n statements) init = (res, s) →
  globals s !! "trainer" = Some (VTrainer t) →
  ∃ d m0 tk0 t0, constructed d m0 tk0 t0 ∧
    (t = t0 ∨ ∃ f, lib_train alloc_conf t0 ∅ = Some (t, f)).
Proof.
  intros Hrun.
  eapply (run_prefix_inv (λ _ x, ∀ t,
    globals x.2 !! "trainer" = Some (VTrainer t) →
    ∃ d m0 tk0 t0, constructed d m0 tk0 t0 ∧
      (t = t0 ∨ ∃ f, lib_train alloc_conf t0 ∅ = Some (t, f))))
    in Hrun as [(-> & -> & ->) | (k & _ & _ & Hall)].
  - by intros [=].
  - apply Hall.
  - unfold_notebook.
    symex ltac:(intros ? Hin; vm_compute in Hin;
                first [ discriminate Hin
                      | inversion Hin; subst; do 4 eexists; split;
                        [ unfold constructed; split_and!; eassumption
                        | first [ by left | right; eexists; eassumption ] ] ]).
Qed.

(** A run of the whole notebook that raises nothing: the library calls it
    made, what it left behind, and that it saved nothing but the trained
    model and its tokenizer. *)
Lemma completed_run s :
  notebook init = (Ok tt, s) →
  ∃ d m0 tk0 t0 t1 f1 f2, constructed d m0 tk0 t0 ∧
    lib_train alloc_conf t0 ∅ = Some (t1, f1) ∧
    lib_model_save_pretrained (tr_model t1) new_id f1 = Some f2 ∧
    lib_tokenizer_save_pretrained (tr_tokenizer t1) new_id f2 = Some (fs s) ∧
    globals s !! "new_model" = Some (VStr new_id) ∧
    globals s !! "training_params" = Some (VArgs declared_training_params) ∧
    globals s !! "trainer" = Some (VTrainer t1) ∧
    EvTrain alloc_conf t0 ∈ trace s ∧
    EvModelSave (tr_model t1) new_id ∈ trace s ∧
    EvTokenizerSave (tr_tokenizer t1) new_id ∈ trace s ∧
    (∀ m dir, EvModelSave m dir ∈ trace s →
       m = tr_model t1 ∧ dir = new_id) ∧
    (∀ tk dir, EvTokenizerSave tk dir ∈ trace s →
       tk = tr_tokenizer t1 ∧ dir = new_id).
Proof.
  intros Hrun. change notebook with (run (take 22 statements)) in Hrun.
  eapply (run_prefix_inv (λ k x, x.1 = Ok tt → (22 ≤ k)%nat →
    ∃ d m0 tk0 t0 t1 f1 f2, constructed d m0 tk0 t0 ∧
      lib_train alloc_conf t0 ∅ = Some (t1, f1) ∧
      lib_model_save_pretrained (tr_model t1) new_id f1 = Some f2 ∧
      lib_tokenizer_save_pretrained (tr_tokenizer t1) new_id f2
        = Some (fs x.2) ∧
      globals x.2 !! "new_model" = Some (VStr new_id) ∧
      globals x.2 !! "training_params"
        = Some (VArgs declared_training_params) ∧
      globals x.2 !! "trainer" = Some (VTrainer t1) ∧
      EvTrain alloc_conf t0 ∈ trace x.2 ∧
      EvModelSave (tr_model t1) new_id ∈ trace x.2 ∧
      EvTokenizerSave (tr_tokenizer t1) new_id ∈ trace x.2 ∧
      (∀ m dir, EvModelSave m dir ∈ trace x.2 →
         m = tr_model t1 ∧ dir = new_id) ∧
      (∀ tk dir, EvTokenizerSave tk dir ∈ trace x.2 →
         tk = tr_tokenizer t1 ∧ dir = new_id)))
    in Hrun as [([=] & _) | (k & Hk & Hlast & Hall)].
  - apply Hall; [done|]. by rewrite Hlast.
  - unfold_notebook.
    symex ltac:(first [ too_early | by intros [=]
                      | intros _ _; do 7 eexists;
                        split; [unfold constructed; split_and!; eassumption|];
                        split_and!;
                        first [ settle
                              | intros ?? Hin; in_trace Hin; inversion Hin;
                                subst; by split ] ]).
Qed.

End Wiring.

(** * The run against the libraries as specified *)

Section SpecLibFacts.
Import SpecLib.

Lemma load_model_Some w env id qc dm m :
  load_model w env id qc dm = Some m →
  name_or_path m = id ∧ Forall (λ p, p_kind p = Base ∧ p_updates p = 0%nat) (parameters m).
Proof.
  unfold load_model. destruct (w_hub w env id qc dm) as [ck|]; [|done].
  intros [= <-]. split; [done|]. simpl.
  apply Forall_fmap, Forall_forall. by intros [[??]?].
Qed.

Lemma is_target_spec targets p :
  is_target targets p ↔ p_kind p = Base ∧ p_module p ∈ targets.
Proof.
  unfold is_target. destruct (p_kind p); simpl.
  - rewrite bool_decide_spec. tauto.
  - split; [done | by intros [? _]].
  - split; [done | by intros [? _]].
Qed.

Lemma attach_adapters_adapted c m m' :
  Forall (λ p, p_kind p = Base) (parameters m) →
  attach_adapters c m = Some m' →
  adapted (target_modules c) (parameters m) (parameters m').
Proof.
  intros Hbase. unfold attach_adapters.
  destruct (forallb _ _); [|done]. intros [= <-]. simpl.
  rewrite Forall_forall in Hbase.
  split_and!.
  - intros p [(b & -> & Hb)%list_elem_of_fmap
             | (b & Hp & (Ht & Hb)%list_elem_of_filter)%list_elem_of_bind]%elem_of_app.
    + simpl. rewrite (Hbase b Hb). naive_solver.
    + apply elem_of_cons in Hp as [-> | ->%list_elem_of_singleton]; simpl;
        (split; [done | by intros _]).
  - intros p [(b & -> & Hb)%list_elem_of_fmap
             | (b & Hp & (Ht & Hb)%list_elem_of_filter)%list_elem_of_bind]%elem_of_app Hk.
    + simpl in Hk. by rewrite (Hbase b Hb) in Hk.
    + apply is_target_spec in Ht as [_ Ht].
      apply elem_of_cons in Hp as [-> | ->%list_elem_of_singleton]; simpl;
        (split; [done|]); by exists b.
  - intros b Hb. exists (freeze b). split_and!; try done.
    + apply elem_of_app. left. by apply list_elem_of_fmap_2.
    + simpl. by apply Hbase.
  - intros b kind Hb Ht Hk.
    assert (Hf : b ∈ filter (λ p, is_target (target_modules c) p) (parameters m)).
    { apply list_elem_of_filter. split; [|done].
      apply is_target_spec. split; [by apply Hbase | done]. }
    exists {| p_block := p_block b; p_module := p_module b; p_kind := kind;
              requires_grad := true; p_updates := 0 |}.
    split; [|done].
    apply elem_of_app. right. apply list_elem_of_bind.
    exists b. split; [|exact Hf].
    destruct kind; [done | |].
    + apply list_elem_of_here.
    + apply list_elem_of_further, list_elem_of_here.
Qed.

Lemma optimizer_updates_adapted targets base ps k :
  adapted targets base ps →
  adapted targets base (optimizer_updates k <$> ps).
Proof.
  intros (Htr & Had & Hbase & Htg). split_and!.
  - intros p (q & -> & Hq)%list_elem_of_fmap. simpl. by apply Htr.
  - intros p (q & -> & Hq)%list_elem_of_fmap. simpl. by apply Had.
  - intros b Hb. destruct (Hbase b Hb) as (p & Hp & ? & ? & ? & Hfr & ?).
    exists (optimizer_updates k p). split; [by apply list_elem_of_fmap_2|].
    simpl. by rewrite Hfr.
  - intros b kind Hb Ht Hk.
    destruct (Htg b kind Hb Ht Hk) as (p & Hp & ? & ? & ? & ?).
    exists (optimizer_updates k p). split; [by apply list_elem_of_fmap_2|done].
Qed.


Lemma construct_trainer_Some w model d pc field msl tk a pk t :
  construct_trainer w model d pc field msl tk a pk = Some t →
  ∃ m seqs, attach_adapters pc model = Some m ∧
    prepare_dataset w d field msl pk = Some seqs ∧
    t = {| tr_model := m; tr_tokenizer := tk; tr_args := a;
           tr_sequences := seqs |}.
Proof.
  unfold construct_trainer.
  destruct (attach_adapters pc model) as [m|]; [|done]. simpl.
  destruct (prepare_dataset w d field msl pk) as [seqs|]; [|done]. simpl.
  intros [= <-]. by exists m, seqs.
Qed.

Lemma train_loop_Some w env t f t' f' :
  train_loop w env t f = Some (t', f') →
  let steps := total_steps (tr_args t) (length (tr_sequences t)) in
  parameters (tr_model t') = optimizer_updates steps <$> parameters (tr_model t) ∧
  tr_tokenizer t' = tr_tokenizer t ∧ tr_args t' = tr_args t ∧
  tr_sequences t' = tr_sequences t ∧
  f' = f ∪ list_to_set ((λ d, (d, WeightsFile)) <$>
                        checkpoint_dirs (tr_args t) steps)
         ∪ list_to_set (log_files w (tr_args t) steps).
Proof.
  unfold train_loop. destruct (w_device_ok w env t); [|done].
  by intros [= <- <-].
Qed.

Lemma save_file_Some w kind dir f f' :
  save_file w kind dir f = Some f' → f' = {[ (dir, kind) ]} ∪ f.
Proof. unfold save_file. destruct (w_writable w dir); [|done]. by intros [= <-]. Qed.

Lemma checkpoint_dirs_root a steps dir :
  dir ∈ checkpoint_dirs a steps →
  ∃ k : nat, dir = output_dir a +:+ "/checkpoint-" +:+ pretty k.
Proof.
  unfold checkpoint_dirs. intros (k & -> & _)%list_elem_of_fmap. by exists k.
Qed.

(** The adapter matrices attachment introduces are trainable and have
    received no optimizer update. *)
Lemma attach_adapters_fresh c m m' :
  Forall (λ p, p_kind p = Base) (parameters m) →
  attach_adapters c m = Some m' →
  ∀ p, p ∈ parameters m' → p_kind p ≠ Base →
       requires_grad p = true ∧ p_updates p = 0%nat.
Proof.
  intros Hbase. unfold attach_adapters.
  destruct (forallb _ _); [|done]. intros [= <-]. simpl.
  rewrite Forall_forall in Hbase.
  intros p [(b & -> & Hb)%list_elem_of_fmap
           | (b & Hp & _)%list_elem_of_bind]%elem_of_app Hk.
  - simpl in Hk. by rewrite (Hbase b Hb) in Hk.
  - by apply elem_of_cons in Hp as [-> | ->%list_elem_of_singleton].
Qed.

Lemma log_files_kind w a steps x :
  x ∈ log_files w a steps → x.2 = LogFile.
Proof. unfold log_files. by intros (k & -> & _)%list_elem_of_fmap. Qed.

(** One sequence per record: the text field, tokenized, cut at the maximum
    length. *)
Lemma prepare_dataset_unpacked w d field msl seqs :
  prepare_dataset w d field msl false = Some seqs →
  Forall2 (λ row seq, ∃ text, row !! field = Some text ∧
             seq = take (Z.to_nat msl) (w_tokenize w text))
          (rows d) seqs.
Proof.
  unfold prepare_dataset.
  destruct (mapM _ (rows d)) as [l|] eqn:Hm; [|done]. simpl. intros [= <-].
  apply mapM_Some in Hm. eapply Forall2_impl; [exact Hm|].
  intros row seq. unfold training_sequence.
  destruct (row !! field) as [text|]; [|done]. simpl. intros [= <-]. by exists text.
Qed.

End SpecLibFacts.

Section Specified.
Context (w : World).
Import SpecLib.

(** C2.  With the libraries as specified: in every state of a run in which
    [trainer] is bound (after construction, after training, after each
    save), the parameters of the trainer's model that require gradients are
    exactly its low-rank adapter matrices; every adapter matrix sits at a
    weight matrix of the loaded base model named q_proj, k_proj or v_proj,
    and every such weight matrix has both of its adapter matrices, trainable;
    every weight matrix of the loaded base model is present, frozen, and has
    received no optimizer update. *)
Theorem only_adapters_trainable n res s t :
  run (take n (statements (L := spec_library w))) init = (res, s) →
  globals s !! "trainer" = Some (VTrainer t) →
  ∃ m0,
    load_model w alloc_conf base_id declared_quant_config "auto" = Some m0 ∧
    let targets := ["q_proj"; "k_proj"; "v_proj"] in
    let ps := parameters (tr_model t) in
    (∀ p, p ∈ ps → (requires_grad p = true ↔ p_kind p ≠ Base)) ∧
    (∀ p, p ∈ ps → p_kind p ≠ Base →
       p_module p ∈ targets ∧
       ∃ b, b ∈ parameters m0 ∧ p_block p = p_block b ∧
            p_module p = p_module b) ∧
    (∀ b, b ∈ parameters m0 →
       p_kind b = Base ∧
       ∃ p, p ∈ ps ∧ p_block p = p_block b ∧ p_module p = p_module b ∧
            p_kind p = Base ∧ requires_grad p = false ∧
            p_updates p = p_updates b) ∧
    (∀ b kind, b ∈ parameters m0 → p_module b ∈ targets → kind ≠ Base →
       ∃ p, p ∈ ps ∧ p_block p = p_block b ∧ p_module p = p_module b ∧
            p_kind p = kind ∧ requires_grad p = true).
Proof.
  intros Hrun Ht.
  destruct (trainer_provenance (L := spec_library w) n res s t Hrun Ht)
    as (d & m0 & tk0 & t0 & (_ & Hm & _ & Hc) & Hcase).
  simpl in Hm, Hc. exists m0. split; [exact Hm|].
  apply load_model_Some in Hm as [_ Hbase].
  assert (Hbase' : Forall (λ p, p_kind p = Base) (parameters m0)).
  { eapply Forall_impl; [exact Hbase|]. by intros p [? _]. }
  apply construct_trainer_Some in Hc as (m & seqs & Hatt & _ & ->).
  apply attach_adapters_adapted in Hatt; [|exact Hbase'].
  simpl in Hatt.
  assert (Had : adapted ["q_proj"; "k_proj"; "v_proj"] (parameters m0)
                        (parameters (tr_model t))).
  { destruct Hcase as [-> | (f & Htrain)]; [exact Hatt|].
    apply train_loop_Some in Htrain as (-> & _). simpl.
    by apply optimizer_updates_adapted. }
  destruct Had as (H1 & H2 & H3 & H4). simpl. split_and!; try done.
  intros b Hb. split; [|by apply H3].
  rewrite Forall_forall in Hbase'. by apply Hbase'.
Qed.

(** C3.  With the libraries as specified: whenever [trainer] is bound, its
    training sequences correspond one to one, in order, to the records of
    the loaded JSON dataset; the sequence of a record is the tokenization of
    that record's "text" field alone, whole when it has at most 2048 tokens
    and cut to its first 2048 tokens otherwise. *)
Theorem one_sequence_per_record n res s t :
  run (take n (statements (L := spec_library w))) init = (res, s) →
  globals s !! "trainer" = Some (VTrainer t) →
  ∃ d,
    w_load_dataset w "json" "./Adapted_dataset 3.json" "train" = Some d ∧
    length (tr_sequences t) = length (rows d) ∧
    ∀ i row, rows d !! i = Some row →
      ∃ text seq,
        row !! "text" = Some text ∧
        tr_sequences t !! i = Some seq ∧
        seq = take (Z.to_nat 2048) (w_tokenize w text) ∧
        seq `prefix_of` w_tokenize w text ∧
        ((length (w_tokenize w text) ≤ Z.to_nat 2048)%nat →
           seq = w_tokenize w text) ∧
        ((Z.to_nat 2048 < length (w_tokenize w text))%nat →
           length seq = Z.to_nat 2048).
Proof.
  intros Hrun Ht.
  destruct (trainer_provenance (L := spec_library w) n res s t Hrun Ht)
    as (d & m0 & tk0 & t0 & (Hd & _ & _ & Hc) & Hcase).
  simpl in Hd, Hc. exists d. split; [exact Hd|].
  apply construct_trainer_Some in Hc as (m & seqs & _ & Hprep & ->).
  apply prepare_dataset_unpacked in Hprep.
  assert (Hseq : tr_sequences t = seqs).
  { destruct Hcase as [-> | (f & Htrain)]; [done|].
    by apply train_loop_Some in Htrain as (_ & _ & _ & -> & _). }
  rewrite Hseq. split; [symmetry; by eapply Forall2_length|].
  intros i row Hrow.
  destruct (Forall2_lookup_l _ _ _ _ _ Hprep Hrow)
    as (seq & Hi & text & Htext & ->).
  exists text, (take (Z.to_nat 2048) (w_tokenize w text)).
  split_and!; try done.
  - apply prefix_take.
  - intros Hle. by apply take_ge.
  - intros Hlt. rewrite length_take. lia.
Qed.

(** C7.  With the libraries as specified: after a run of the whole notebook
    that raises nothing, [trainer] is bound to what train() made of the
    trainer the notebook constructed: its adapter matrices are trainable
    and have received one update per optimizer step of the run over the
    loaded records, and its tokenizer is the configured one.  The run made
    exactly two save calls, one with that trainer's model and one with that
    trainer's tokenizer, both into the directory named by [new_model].
    That directory holds a weights file and tokenizer files, put there by
    the saves and not by training; it is neither the training-output root
    ./Trained_models nor inside it; every other weights file the run wrote
    is a checkpoint under that root, and there are tokenizer files nowhere
    else.  Where training keeps its log records is left open. *)
Theorem final_adapter_directory s :
  notebook (L := spec_library w) init = (Ok tt, s) →
  let final := "DeepSeek-6-7b-instruct-Verilog-caseif-V4-256-QKV" in
  let root := "./Trained_models" in
  ∃ d m0 tk0 t0 t1 f1,
    constructed (L := spec_library w) d m0 tk0 t0 ∧
    EvTrain alloc_conf t0 ∈ trace s ∧
    train_loop w alloc_conf t0 ∅ = Some (t1, f1) ∧
    globals s !! "trainer" = Some (VTrainer t1) ∧
    (let steps := total_steps declared_training_params (length (rows d)) in
     parameters (tr_model t1)
       = optimizer_updates steps <$> parameters (tr_model t0) ∧
     ∀ p, p ∈ parameters (tr_model t1) → p_kind p ≠ Base →
          requires_grad p = true ∧ p_updates p = steps) ∧
    tr_tokenizer t1
      = set_padding_side "right" (set_pad_token (eos_token tk0) tk0) ∧
    globals s !! "new_model" = Some (VStr final) ∧
    EvModelSave (tr_model t1) final ∈ trace s ∧
    EvTokenizerSave (tr_tokenizer t1) final ∈ trace s ∧
    (∀ m dir, EvModelSave m dir ∈ trace s →
       m = tr_model t1 ∧ dir = final) ∧
    (∀ tk dir, EvTokenizerSave tk dir ∈ trace s →
       tk = tr_tokenizer t1 ∧ dir = final) ∧
    fs s = {[ (final, TokenizerFile) ]} ∪ ({[ (final, WeightsFile) ]} ∪ f1) ∧
    (final, WeightsFile) ∈ fs s ∧
    (final, TokenizerFile) ∈ fs s ∧
    ((final, WeightsFile) ∉ f1) ∧
    ((final, TokenizerFile) ∉ f1) ∧
    globals s !! "training_params" = Some (VArgs declared_training_params) ∧
    output_dir declared_training_params = root ∧
    final ≠ root ∧
    String.prefix root final = false ∧
    (∀ dir, (dir, WeightsFile) ∈ fs s →
       dir = final ∨ ∃ k : nat, dir = root +:+ "/checkpoint-" +:+ pretty k) ∧
    (∀ dir, (dir, TokenizerFile) ∈ fs s → dir = final).
Proof.
  intros Hrun final root.
  destruct (completed_run (L := spec_library w) s Hrun)
    as (d & m0 & tk0 & t0 & t1 & f1 & f2 & Hcons & Htrain & Hsm & Hst &
        Hnew & Hargs & Htr & Hevtrain & Hevm & Hevt & Honlym & Honlyt).
  exists d, m0, tk0, t0, t1, f1.
  pose proof Hcons as (_ & Hm & _ & Hc).
  simpl in Hm, Hc, Htrain, Hsm, Hst.
  pose proof Htrain as Htrain'.
  apply load_model_Some in Hm as [_ Hbase].
  assert (Hbase' : Forall (λ p, p_kind p = Base) (parameters m0)).
  { eapply Forall_impl; [exact Hbase|]. by intros p [? _]. }
  apply construct_trainer_Some in Hc as (m & seqs & Hatt & Hprep & ->).
  pose proof (λ H, attach_adapters_fresh _ _ _ H Hatt) as Hfresh.
  specialize (Hfresh Hbase').
  apply prepare_dataset_unpacked, Forall2_length in Hprep.
  apply train_loop_Some in Htrain' as (Hps & Htk & _ & _ & Hf1).
  simpl in Hps, Htk, Hf1. rewrite <- Hprep in Hps, Hf1.
  apply save_file_Some in Hsm as ->. apply save_file_Some in Hst.
  assert (Hw1 : ∀ dir, (dir, WeightsFile) ∈ f1 →
            ∃ k : nat, dir = root +:+ "/checkpoint-" +:+ pretty k).
  { intros dir. rewrite Hf1, !elem_of_union, !elem_of_list_to_set.
    intros [[[]%elem_of_empty
            | (dir' & [= ->] & Hdir)%list_elem_of_fmap]
           | [=]%log_files_kind].
    by apply checkpoint_dirs_root in Hdir. }
  assert (Ht1 : ∀ dir, (dir, TokenizerFile) ∉ f1).
  { intros dir. rewrite Hf1, !elem_of_union, !elem_of_list_to_set.
    intros [[Hin | Hin] | Hin].
    - by apply elem_of_empty in Hin.
    - apply list_elem_of_fmap in Hin as (dir' & Heq & _). discriminate Heq.
    - apply log_files_kind in Hin. discriminate Hin. }
  split_and!; try done.
  - split; [exact Hps|]. intros p. rewrite Hps.
    intros (q & -> & Hq)%list_elem_of_fmap Hk.
    destruct (Hfresh q Hq Hk) as [Hg Hu]. simpl. by rewrite Hg, Hu.
  - rewrite Hst, !elem_of_union, !elem_of_singleton. auto.
  - rewrite Hst, !elem_of_union, !elem_of_singleton. auto.
  - intros (k & Hk)%Hw1. discriminate Hk.
  - intros dir. rewrite Hst, !elem_of_union, !elem_of_singleton.
    intros [[=] | [[= ->] | Hin]]; [by left|]. right. by apply Hw1.
  - intros dir. rewrite Hst, !elem_of_union, !elem_of_singleton.
    intros [[= ->] | [[=] | Hin]]; [done|]. by apply Ht1 in Hin.
Qed.

End Specified.

(** * The theorems at work: the notebook run in the demonstration world *)

Lemma demo_completes : (notebook (L := Demo.library) init).1 = Ok tt.
Proof. vm_compute. reflexivity. Qed.

Lemma demo_run :
  run (take 22 (statements (L := Demo.library))) init = (Ok tt, Demo.final).
Proof. rewrite <- demo_completes. apply surjective_pairing. Qed.

Lemma demo_notebook : notebook (L := Demo.library) init = (Ok tt, Demo.final).
Proof. exact demo_run. Qed.

Lemma trainer_receives_declared_values_witness :
  run (take 22 (statements (L := Demo.library))) init = (Ok tt, Demo.final) ∧
  ∃ m d pc tk a,
    EvSFTTrainer m d pc "text" 2048 tk a false ∈ trace Demo.final.
Proof.
  split; [exact demo_run|].
  apply (trainer_receives_declared_values (L := Demo.library)
           22 (Ok tt) Demo.final demo_run); [reflexivity | lia].
Defined.

Lemma only_adapters_trainable_witness :
  ∃ t,
    run (take 22 (statements (L := Demo.library))) init
      = (Ok tt, Demo.final) ∧
    globals Demo.final !! "trainer" = Some (VTrainer t) ∧
    ∀ p, p ∈ parameters (tr_model t) →
         (requires_grad p = true ↔ p_kind p ≠ Base).
Proof.
  eexists. split; [exact demo_run|].
  split; [vm_compute; reflexivity|].
  destruct (only_adapters_trainable Demo.world 22 (Ok tt) Demo.final _
              demo_run ltac:(vm_compute; reflexivity))
    as (m0 & _ & H & _).
  exact H.
Defined.

Lemma one_sequence_per_record_witness :
  ∃ t d,
    run (take 22 (statements (L := Demo.library))) init
      = (Ok tt, Demo.final) ∧
    globals Demo.final !! "trainer" = Some (VTrainer t) ∧
    w_load_dataset Demo.world "json" "./Adapted_dataset 3.json" "train"
      = Some d ∧
    length (tr_sequences t) = length (rows d).
Proof.
  eexists. 
  destruct (one_sequence_per_record Demo.world 22 (Ok tt) Demo.final _
              demo_run ltac:(vm_compute; reflexivity))
    as (d & Hd & Hlen & _).
  exists d. split; [exact demo_run|].
  split; [vm_compute; reflexivity|].
  split; [exact Hd | exact Hlen].
Defined.

Lemma loader_configures_model_and_tokenizer_witness :
  run (take 22 (statements (L := Demo.library))) init = (Ok tt, Demo.final) ∧
  ∃ m0 m,
    lib_model_from_pretrained (Library := Demo.library) alloc_conf base_id
      declared_quant_config "auto" = Some m0 ∧
    globals Demo.final !! "model" = Some (VModel m) ∧
    use_cache (config m) = false.
Proof.
  split; [exact demo_run|].
  destruct (loader_configures_model_and_tokenizer (L := Demo.library)
              22 (Ok tt) Demo.final demo_run)
    as (Hm & _).
  destruct (Hm eq_refl ltac:(lia)) as (m0 & m & Hload & Hvar & Hcache & _).
  exists m0, m. split; [exact Hload|]. split; [exact Hvar | exact Hcache].
Defined.

Lemma quant_config_built_once_and_kept_witness :
  run (take 22 (statements (L := Demo.library))) init = (Ok tt, Demo.final) ∧
  (quant_constructions (trace Demo.final) = [] ∨
   quant_constructions (trace Demo.final) = [declared_quant_config]).
Proof.
  split; [exact demo_run|].
  apply (quant_config_built_once_and_kept (L := Demo.library)
           22 (Ok tt) Demo.final demo_run).
Defined.

Lemma pipeline_is_sequential_witness :
  run (take 22 (statements (L := Demo.library))) init = (Ok tt, Demo.final) ∧
  stages (trace Demo.final) = pipeline_order.
Proof.
  split; [exact demo_run|].
  apply (pipeline_is_sequential (L := Demo.library) 22 (Ok tt) Demo.final
           demo_run); [reflexivity | lia].
Defined.

Lemma final_adapter_directory_witness :
  notebook (L := Demo.library) init = (Ok tt, Demo.final) ∧
  ∃ t1,
    globals Demo.final !! "trainer" = Some (VTrainer t1) ∧
    EvModelSave (tr_model t1)
      "DeepSeek-6-7b-instruct-Verilog-caseif-V4-256-QKV" ∈ trace Demo.final ∧
    ("DeepSeek-6-7b-instruct-Verilog-caseif-V4-256-QKV", WeightsFile)
      ∈ fs Demo.final ∧
    ("DeepSeek-6-7b-instruct-Verilog-caseif-V4-256-QKV", TokenizerFile)
      ∈ fs Demo.final.
Proof.
  split; [exact demo_notebook|].
  destruct (final_adapter_directory Demo.world Demo.final demo_notebook)
    as (d & m0 & tk0 & t0 & t1 & f1 & _ & _ & _ & Htr & _ & _ & _ & Hevm &
        _ & _ & _ & _ & Hw & Ht & _).
  exists t1. split_and!; assumption.
Defined.

Lemma alloc_conf_set_before_model_load_witness :
  run (take 22 (statements (L := Demo.library))) init = (Ok tt, Demo.final) ∧
  environ Demo.final !! "PYTORCH_CUDA_ALLOC_CONF"
    = Some "max_split_size_mb:512".
Proof.
  split; [exact demo_run|].
  apply (alloc_conf_set_before_model_load (L := Demo.library)
           22 (Ok tt) Demo.final demo_run). lia.
Defined.

Lemma tokenizer_trusts_remote_code_witness :
  run (take 22 (statements (L := Demo.library))) init = (Ok tt, Demo.final) ∧
  EvTokenizerFromPretrained "deepseek-ai/deepseek-coder-6.7b-instruct" true
    ∈ trace Demo.final.
Proof.
  split; [exact demo_run|].
  apply (tokenizer_trusts_remote_code (L := Demo.library)
           22 (Ok tt) Demo.final demo_run); [reflexivity | lia].
Defined.

Lemma lora_alpha_equals_rank_witness :
  run (take 22 (statements (L := Demo.library))) init = (Ok tt, Demo.final) ∧
  ∀ c, globals Demo.final !! "peft_params" = Some (VLora c) →
       lora_alpha c = r c ∧ (lora_scaling c == 1)%Q.
Proof.
  split; [exact demo_run|].
  intros c Hc.
  destruct (lora_alpha_equals_rank (L := Demo.library) 22 (Ok tt) Demo.final
              demo_run c (or_intror (or_introl Hc)))
    as (Heq & _ & Hscale & _).
  split; [exact Heq | exact Hscale].
Defined.

(** * Beyond a fresh kernel: cells run on their own and runs on a used kernel *)

Ltac plumb_state :=
  cbv beta iota zeta delta
    [with_globals with_environ with_fs with_trace
     environ globals fs trace fst snd].

Ltac plumb_state_in H :=
  cbv beta iota zeta delta
    [with_globals with_environ with_fs with_trace
     environ globals fs trace fst snd] in H.

(** A read of the namespace, resolved through the assignments made so far
    and the hypotheses on the state the run started from. *)
Ltac chain_lookup :=
  plumb_state;
  repeat (rewrite lookup_insert_ne by done);
  first [ apply lookup_insert_eq | eassumption ].

Ltac lhs_head_in H :=
  lazymatch type of H with
  | ?l = ?r =>
      let l' := eval lazy head beta iota zeta delta
                  -[name history_all lib_load_dataset lib_model_from_pretrained
                    lib_tokenizer_from_pretrained lib_SFTTrainer lib_train
                    lib_model_save_pretrained lib_tokenizer_save_pretrained]
                in l in
      change (l' = r) in H
  end.

(** Symbolic execution of [H : run stmts s = (res, s')] from a state of
    which only the hypotheses are known. *)
Ltac run_in H :=
  lhs_head_in H;
  repeat match type of H with
  | context [name ?x ?st] =>
      first
        [ let Hl := fresh in
          eassert (Hl : globals st !! x = Some _) by chain_lookup;
          rewrite (name_Some x st _ Hl) in H; clear Hl
        | let Hl := fresh in
          assert (Hl : globals st !! x = None) by chain_lookup;
          rewrite (name_None x st Hl) in H; clear Hl ];
      lhs_head_in H
  | context [match ?o with Some a => ret a | None => raise _ end] =>
      let E := fresh "Ecall" in
      destruct o eqn:E;
      plumb_state_in E;
      try match goal with p : (Trainer * _)%type |- _ => destruct p end;
      lhs_head_in H
  end;
  plumb_state_in H;
  first [ discriminate H | injection H as <- <- | injection H as <- ].


Ltac exec_head_from :=
  head_reduce;
  repeat match goal with
  | |- context [name ?x ?st] =>
      let Hl := fresh in
      eassert (Hl : globals st !! x = Some _) by chain_lookup;
      rewrite (name_Some x st _ Hl); clear Hl;
      head_reduce
  | |- context [match ?o with Some a => ret a | None => raise _ end] =>
      let E := fresh "Ecall" in
      destruct o eqn:E;
      plumb_state_in E;
      try match goal with p : (Trainer * _)%type |- _ => destruct p end;
      head_reduce
  end.

Ltac symex_from tac :=
  lazymatch goal with
  | |- history_all _ _ (history [] _) => apply history_all_nil
  | |- history_all _ _ (history (_ :: _) _) =>
      apply history_all_step; exec_head_from;
      (split; [plumb_state; tac
              | head_reduce; try exact I; plumb_state; symex_from tac])
  end.

Ltac unfold_statements :=
  let c := eval cbv [statements cells concat app cell_environment cell_names
                     cell_dataset cell_quant_config cell_model cell_tokenizer
                     cell_peft_params cell_training_params cell_trainer
                     cell_train cell_save] in statements in
  change statements with c.

(** ** Any kernel state *)

Section AnyKernel.
Context `{L : Library}.

Lemma run_prefix_from (P : nat → result unit * State → Prop) s0 n r s :
  history_all P 1 (history statements s0) →
  run (take n statements) s0 = (r, s) →
  (n = 0%nat ∧ r = Ok tt ∧ s = s0) ∨
  (∃ k, (1 ≤ k ≤ n)%nat ∧ (r = Ok tt → k = n `min` 22)%nat ∧ P k (r, s)).
Proof.
  intros Hall Hrun. destruct n as [|n].
  - left. by inversion Hrun.
  - right. apply run_take_history in Hrun as (i & Hi & Hle & Hok); [|done].
    exists (S i). split; [lia|]. split; [exact Hok|].
    apply (Hall i _ Hi).
Qed.

(** Run in document order, every statement reads values that earlier
    statements of the same run assigned, so that the kind of a value read
    is the kind the notebook gave it. *)
Lemma run_reads_what_it_assigned s0 n res s :
  run (take n statements) s0 = (res, s) →
  ∀ x, res ≠ Raise (TypeError x).
Proof.
  intros Hrun.
  eapply (run_prefix_from (λ _ x, ∀ y, x.1 ≠ Raise (TypeError y)))
    in Hrun as [(_ & -> & _) | (k & _ & _ & Hall)].
  - done.
  - exact Hall.
  - destruct s0 as [e0 g0 f0 t0]. unfold_statements.
    symex_from ltac:(by intros ? [=]).
Qed.

(** X1.  Started from any kernel state and run in document order, however
    far it gets, the notebook never stops on an unbound name: every name a
    statement reads has been assigned by an earlier statement of the same
    run. *)
Theorem run_never_raises_NameError s0 n res s :
  run (take n statements) s0 = (res, s) →
  ∀ x, res ≠ Raise (NameError x).
Proof.
  intros Hrun.
  eapply (run_prefix_from (λ _ x, ∀ y, x.1 ≠ Raise (NameError y)))
    in Hrun as [(_ & -> & _) | (k & _ & _ & Hall)].
  - done.
  - exact Hall.
  - destruct s0 as [e0 g0 f0 t0]. unfold_statements.
    symex_from ltac:(by intros ? [=]).
Qed.

(** X3.  Run to the end on a kernel that already holds variables (left
    over, say, from an earlier run with other settings), the notebook makes
    the same twelve steps as on a fresh kernel (the environment write, the
    cache release, the constructions and the library calls), in the same
    order and with the declared literals, the model load and the training
    loop under an environment that carries the allocator setting; they are
    appended to whatever the kernel had done before, and the nine variables
    the calls are fed from end up bound to the values of this run: no value
    an earlier run left in a variable of the notebook reaches a call. *)
Theorem rerun_makes_the_same_calls s0 s :
  notebook s0 = (Ok tt, s) →
  ∃ env_load env_train d m0 tk0 t0 t1 f1 f2,
    lib_load_dataset "json" "./Adapted_dataset 3.json" "train" = Some d ∧
    lib_model_from_pretrained env_load base_id declared_quant_config "auto"
      = Some m0 ∧
    env_load !! "PYTORCH_CUDA_ALLOC_CONF" = Some "max_split_size_mb:512" ∧
    lib_tokenizer_from_pretrained base_id true = Some tk0 ∧
    lib_SFTTrainer (set_pretraining_tp 1 (set_use_cache false m0)) d
      declared_peft_params "text" 2048
      (set_padding_side "right" (set_pad_token (eos_token tk0) tk0))
      declared_training_params false = Some t0 ∧
    lib_train env_train t0 (fs s0) = Some (t1, f1) ∧
    env_train !! "PYTORCH_CUDA_ALLOC_CONF" = Some "max_split_size_mb:512" ∧
    lib_model_save_pretrained (tr_model t1) new_id f1 = Some f2 ∧
    lib_tokenizer_save_pretrained (tr_tokenizer t1) new_id f2
      = Some (fs s) ∧
    trace s =
      (trace s0 ++
       [ EvSetEnv "PYTORCH_CUDA_ALLOC_CONF" "max_split_size_mb:512";
         EvEmptyCache;
         EvLoadDataset "json" "./Adapted_dataset 3.json" "train";
         EvBitsAndBytesConfig declared_quant_config;
         EvModelFromPretrained env_load base_id declared_quant_config "auto";
         EvTokenizerFromPretrained base_id true;
         EvLoraConfig declared_peft_params;
         EvTrainingArguments declared_training_params;
         EvSFTTrainer (set_pretraining_tp 1 (set_use_cache false m0)) d
           declared_peft_params "text" 2048
           (set_padding_side "right" (set_pad_token (eos_token tk0) tk0))
           declared_training_params false;
         EvTrain env_train t0;
         EvModelSave (tr_model t1) new_id;
         EvTokenizerSave (tr_tokenizer t1) new_id ])%list ∧
    globals s !! "base_model" = Some (VStr base_id) ∧
    globals s !! "new_model" = Some (VStr new_id) ∧
    globals s !! "dataset" = Some (VDataset d) ∧
    globals s !! "quant_config" = Some (VQuant declared_quant_config) ∧
    globals s !! "model"
      = Some (VModel (set_pretraining_tp 1 (set_use_cache false m0))) ∧
    globals s !! "tokenizer"
      = Some (VTokenizer
                (set_padding_side "right"
                   (set_pad_token (eos_token tk0) tk0))) ∧
    globals s !! "peft_params" = Some (VLora declared_peft_params) ∧
    globals s !! "training_params" = Some (VArgs declared_training_params) ∧
    globals s !! "trainer" = Some (VTrainer t1).
Proof.
  intros Hrun. change notebook with (run (take 22 statements)) in Hrun.
  eapply (run_prefix_from (λ k x, x.1 = Ok tt → (22 ≤ k)%nat →
    ∃ env_load env_train d m0 tk0 t0 t1 f1 f2,
      lib_load_dataset "json" "./Adapted_dataset 3.json" "train" = Some d ∧
      lib_model_from_pretrained env_load base_id declared_quant_config "auto"
        = Some m0 ∧
      env_load !! "PYTORCH_CUDA_ALLOC_CONF" = Some "max_split_size_mb:512" ∧
      lib_tokenizer_from_pretrained base_id true = Some tk0 ∧
      lib_SFTTrainer (set_pretraining_tp 1 (set_use_cache false m0)) d
        declared_peft_params "text" 2048
        (set_padding_side "right" (set_pad_token (eos_token tk0) tk0))
        declared_training_params false = Some t0 ∧
      lib_train env_train t0 (fs s0) = Some (t1, f1) ∧
      env_train !! "PYTORCH_CUDA_ALLOC_CONF" = Some "max_split_size_mb:512" ∧
      lib_model_save_pretrained (tr_model t1) new_id f1 = Some f2 ∧
      lib_tokenizer_save_pretrained (tr_tokenizer t1) new_id f2
        = Some (fs x.2) ∧
      trace x.2 =
        (trace s0 ++
         [ EvSetEnv "PYTORCH_CUDA_ALLOC_CONF" "max_split_size_mb:512";
           EvEmptyCache;
           EvLoadDataset "json" "./Adapted_dataset 3.json" "train";
           EvBitsAndBytesConfig declared_quant_config;
           EvModelFromPretrained env_load base_id declared_quant_config
             "auto";
           EvTokenizerFromPretrained base_id true;
           EvLoraConfig declared_peft_params;
           EvTrainingArguments declared_training_params;
           EvSFTTrainer (set_pretraining_tp 1 (set_use_cache false m0)) d
             declared_peft_params "text" 2048
             (set_padding_side "right" (set_pad_token (eos_token tk0) tk0))
             declared_training_params false;
           EvTrain env_train t0;
           EvModelSave (tr_model t1) new_id;
           EvTokenizerSave (tr_tokenizer t1) new_id ])%list ∧
      globals x.2 !! "base_model" = Some (VStr base_id) ∧
      globals x.2 !! "new_model" = Some (VStr new_id) ∧
      globals x.2 !! "dataset" = Some (VDataset d) ∧
      globals x.2 !! "quant_config" = Some (VQuant declared_quant_config) ∧
      globals x.2 !! "model"
        = Some (VModel (set_pretraining_tp 1 (set_use_cache false m0))) ∧
      globals x.2 !! "tokenizer"
        = Some (VTokenizer
                  (set_padding_side "right"
                     (set_pad_token (eos_token tk0) tk0))) ∧
      globals x.2 !! "peft_params" = Some (VLora declared_peft_params) ∧
      globals x.2 !! "training_params"
        = Some (VArgs declared_training_params) ∧
      globals x.2 !! "trainer" = Some (VTrainer t1)))
    in Hrun as [([=] & _) | (k & Hk & Hlast & Hall)].
  - apply Hall; [done|]. by rewrite Hlast.
  - destruct s0 as [e0 g0 f0 t0]. unfold_statements.
    symex_from ltac:(first
      [ too_early | by intros [=]
      | intros _ _; do 9 eexists; split_and!;
        first [ eassumption | reflexivity | apply lookup_insert_eq
              | rewrite <- !app_assoc; reflexivity
              | chain_lookup ] ]).
Qed.

End AnyKernel.

(** ** Cells on their own *)

Section Cells.
Context `{L : Library}.

(** X5.  On a kernel without [trainer], the train cell and the save cell
    stop with a NameError and change nothing; with [trainer] but without
    [new_model], the save cell stops with a NameError before saving
    anything. *)
Theorem train_and_save_need_trainer s :
  (globals s !! "trainer" = None →
     run cell_train s = (Raise (NameError "trainer"), s) ∧
     run cell_save s = (Raise (NameError "trainer"), s)) ∧
  (∀ t, globals s !! "trainer" = Some (VTrainer t) →
     globals s !! "new_model" = None →
     run cell_save s = (Raise (NameError "new_model"), s)).
Proof.
  destruct s as [e g f tr]. simpl. split.
  - intros Ht. split.
    + match goal with |- ?l = _ => destruct l as [res s'] eqn:Hrun end.
      by run_in Hrun.
    + match goal with |- ?l = _ => destruct l as [res s'] eqn:Hrun end.
      by run_in Hrun.
  - intros t Ht Hd.
    match goal with |- ?l = _ => destruct l as [res s'] eqn:Hrun end.
    by run_in Hrun.
Qed.

(** X6.  The save cell saves the model and the tokenizer of whatever
    [trainer] holds into the one directory [new_model] names, model first.
    When the model save raises, the tokenizer save is not attempted.  The
    cell rebinds no variable. *)
Theorem save_cell_stops_at_first_failure s res s' t dir :
  run cell_save s = (res, s') →
  globals s !! "trainer" = Some (VTrainer t) →
  globals s !! "new_model" = Some (VStr dir) →
  globals s' = globals s ∧ environ s' = environ s ∧
  match lib_model_save_pretrained (tr_model t) dir (fs s) with
  | None =>
      res = Raise (LibraryError "PreTrainedModel.save_pretrained") ∧
      trace s' = (trace s ++ [EvModelSave (tr_model t) dir])%list
  | Some f1 =>
      trace s' = (trace s ++ [EvModelSave (tr_model t) dir;
                              EvTokenizerSave (tr_tokenizer t) dir])%list ∧
      match lib_tokenizer_save_pretrained (tr_tokenizer t) dir f1 with
      | None => res = Raise (LibraryError "PreTrainedTokenizer.save_pretrained")
      | Some f2 => res = Ok tt ∧ fs s' = f2
      end
  end.
Proof.
  intros Hrun Ht Hd. destruct s as [e g f tr]. simpl in Ht, Hd. simpl.
  run_in Hrun; rewrite ?Ecall; simpl; rewrite ?Ecall0;
    rewrite <- ?app_assoc; done.
Qed.

(** X7.  The model cell loads the model for whatever [base_model] and
    [quant_config] hold at that moment, with device_map "auto".  When the
    load returns, [model] is bound to the loaded handle with use_cache False
    and pretraining_tp 1 and nothing else changed; when it raises, [model]
    keeps whatever binding it had and no attribute is written. *)
Theorem model_cell_outcomes s res s' b qc :
  run cell_model s = (res, s') →
  globals s !! "base_model" = Some (VStr b) →
  globals s !! "quant_config" = Some (VQuant qc) →
  trace s' =
    (trace s ++ [EvModelFromPretrained (environ s) b qc "auto"])%list ∧
  match lib_model_from_pretrained (environ s) b qc "auto" with
  | Some m0 =>
      res = Ok tt ∧
      ∃ m, globals s' !! "model" = Some (VModel m) ∧
           config m = {| use_cache := false; pretraining_tp := 1 |} ∧
           name_or_path m = name_or_path m0 ∧
           parameters m = parameters m0
  | None =>
      res = Raise (LibraryError "AutoModelForCausalLM.from_pretrained") ∧
      globals s' !! "model" = globals s !! "model"
  end.
Proof.
  intros Hrun Hb Hq. destruct s as [e g f tr]. simpl in Hb, Hq. simpl.
  run_in Hrun; plumb_state; rewrite ?Ecall; (split; [done|]); (split; [done|]).
  - eexists. split; [chain_lookup|done].
  - by rewrite !lookup_insert_ne by done.
Qed.

(** X9.  The tokenizer cell loads the tokenizer for whatever [base_model]
    holds, with trust_remote_code=True.  When the load returns, [tokenizer]
    is bound to the handle with the padding token equal to the loaded
    end-of-sequence token (none when there is none) and padding side
    "right", its end-of-sequence token and name unchanged; when it raises,
    the namespace is unchanged. *)
Theorem tokenizer_cell_outcomes s res s' b :
  run cell_tokenizer s = (res, s') →
  globals s !! "base_model" = Some (VStr b) →
  trace s' = (trace s ++ [EvTokenizerFromPretrained b true])%list ∧
  match lib_tokenizer_from_pretrained b true with
  | Some tk0 =>
      res = Ok tt ∧
      ∃ tk, globals s' !! "tokenizer" = Some (VTokenizer tk) ∧
            pad_token tk = eos_token tk0 ∧
            eos_token tk = eos_token tk0 ∧
            padding_side tk = "right" ∧
            tok_name_or_path tk = tok_name_or_path tk0
  | None =>
      res = Raise (LibraryError "AutoTokenizer.from_pretrained") ∧
      globals s' = globals s
  end.
Proof.
  intros Hrun Hb. destruct s as [e g f tr]. simpl in Hb. simpl.
  run_in Hrun; plumb_state; rewrite ?Ecall; (split; [done|]); (split; [done|]).
  - eexists. split; [chain_lookup|done].
  - done.
Qed.

(** X10.  Running the train cell a second time does not start over: the
    second train() call is made on the trainer as the first call left it. *)
Theorem train_cell_twice s res s2 t t1 f1 :
  run (cell_train ++ cell_train) s = (res, s2) →
  globals s !! "trainer" = Some (VTrainer t) →
  lib_train (environ s) t (fs s) = Some (t1, f1) →
  trace s2 = (trace s ++ [EvTrain (environ s) t;
                          EvTrain (environ s) t1])%list ∧
  match lib_train (environ s) t1 f1 with
  | Some (t2, f2) =>
      res = Ok tt ∧ globals s2 !! "trainer" = Some (VTrainer t2) ∧ fs s2 = f2
  | None => res = Raise (LibraryError "Trainer.train")
  end.
Proof.
  intros Hrun Ht Htrain. destruct s as [e g f tr]. simpl in Ht, Htrain. simpl.
  run_in Hrun; plumb_state; rewrite Htrain in Ecall; simplify_eq;
    rewrite Ecall0, <- ?app_assoc; (split; [done|]); [|done].
  split; [done|]. split; [|done]. apply lookup_insert_eq.
Qed.

(** X11.  The four configuration cells (model names, quantization, adapter,
    training arguments) read nothing but what they assign themselves: run
    again on the state they produced, they succeed and leave namespace,
    environment and files as they were. *)
Theorem config_cells_idempotent c s s1 res s2 :
  c ∈ [cell_names; cell_quant_config; cell_peft_params; cell_training_params] →
  run c s = (Ok tt, s1) →
  run c s1 = (res, s2) →
  res = Ok tt ∧ globals s2 = globals s1 ∧ environ s2 = environ s1 ∧
  fs s2 = fs s1.
Proof.
  intros Hc H1 H2. destruct s as [e g f tr].
  repeat (apply elem_of_cons in Hc as [-> | Hc]);
    [ | | | | by apply elem_of_nil in Hc ];
    run_in H1; run_in H2; plumb_state; (split; [done|]); (split; [|done]);
    apply map_eq; intros k; rewrite !lookup_insert;
    repeat case_decide; congruence.
Qed.

End Cells.

Lemma run_never_raises_NameError_witness :
  run (take 22 (statements (L := Demo.library))) init = (Ok tt, Demo.final) ∧
  Ok tt ≠ Raise (NameError "model").
Proof.
  split; [exact demo_run|].
  apply (run_never_raises_NameError (L := Demo.library) init 22 (Ok tt)
           Demo.final demo_run).
Defined.

Lemma used_completes : (notebook (L := Demo.library) Demo.used).1 = Ok tt.
Proof. vm_compute. reflexivity. Qed.

Lemma used_notebook :
  notebook (L := Demo.library) Demo.used = (Ok tt, Demo.rerun).
Proof. rewrite <- used_completes. apply surjective_pairing. Qed.

Lemma rerun_makes_the_same_calls_witness :
  notebook (L := Demo.library) Demo.used = (Ok tt, Demo.rerun) ∧
  globals Demo.used !! "training_params" = Some (VStr "stale") ∧
  globals Demo.rerun !! "training_params"
    = Some (VArgs declared_training_params).
Proof.
  split; [exact used_notebook|].
  split; [vm_compute; reflexivity|].
  destruct (rerun_makes_the_same_calls (L := Demo.library) Demo.used
              Demo.rerun used_notebook)
    as (e1 & e2 & d & m0 & tk0 & t0 & t1 & f1 & f2 & H).
  apply H.
Defined.

Lemma train_and_save_need_trainer_witness :
  globals init !! "trainer" = None ∧
  run (cell_save (L := Demo.library)) init
    = (Raise (NameError "trainer"), init).
Proof.
  assert (Ht : globals init !! "trainer" = None) by (vm_compute; reflexivity).
  split; [exact Ht|].
  apply (train_and_save_need_trainer (L := Demo.library) init). exact Ht.
Defined.

Lemma save_cell_stops_at_first_failure_witness :
  ∃ t dir,
    globals Demo.final !! "trainer" = Some (VTrainer t) ∧
    globals Demo.final !! "new_model" = Some (VStr dir) ∧
    globals (run (cell_save (L := Demo.library)) Demo.final).2
      = globals Demo.final.
Proof.
  eexists _, _.
  split; [vm_compute; reflexivity|]. split; [vm_compute; reflexivity|].
  eapply (save_cell_stops_at_first_failure (L := Demo.library) Demo.final _ _
            _ _ (surjective_pairing _));
    vm_compute; reflexivity.
Defined.

Lemma model_cell_outcomes_witness :
  ∃ b qc,
    globals Demo.final !! "base_model" = Some (VStr b) ∧
    globals Demo.final !! "quant_config" = Some (VQuant qc) ∧
    trace (run (cell_model (L := Demo.library)) Demo.final).2 =
      (trace Demo.final ++
       [EvModelFromPretrained (environ Demo.final) b qc "auto"])%list.
Proof.
  eexists _, _.
  split; [vm_compute; reflexivity|]. split; [vm_compute; reflexivity|].
  eapply (model_cell_outcomes (L := Demo.library) Demo.final _ _ _ _
            (surjective_pairing _));
    vm_compute; reflexivity.
Defined.

Lemma tokenizer_cell_outcomes_witness :
  ∃ b,
    globals Demo.final !! "base_model" = Some (VStr b) ∧
    trace (run (cell_tokenizer (L := Demo.library)) Demo.final).2 =
      (trace Demo.final ++ [EvTokenizerFromPretrained b true])%list.
Proof.
  eexists. split; [vm_compute; reflexivity|].
  eapply (tokenizer_cell_outcomes (L := Demo.library) Demo.final _ _ _
            (surjective_pairing _));
    vm_compute; reflexivity.
Defined.

Lemma config_cells_idempotent_witness :
  run cell_names init = (Ok tt, (run cell_names init).2) ∧
  (run cell_names (run cell_names init).2).1 = Ok tt.
Proof.
  assert (H1 : run cell_names init = (Ok tt, (run cell_names init).2))
    by reflexivity.
  split; [exact H1|].
  eapply (config_cells_idempotent cell_names init _ _ _
            (list_elem_of_here _ _) H1 (surjective_pairing _)).
Defined.

Lemma train_cell_twice_witness :
  ∃ t t1 f1,
    globals Demo.final !! "trainer" = Some (VTrainer t) ∧
    lib_train (Library := Demo.library) (environ Demo.final) t (fs Demo.final)
      = Some (t1, f1) ∧
    trace (run (cell_train (L := Demo.library) ++
                cell_train (L := Demo.library)) Demo.final).2 =
      (trace Demo.final ++ [EvTrain (environ Demo.final) t;
                            EvTrain (environ Demo.final) t1])%list.
Proof.
  evar (t : Trainer).
  assert (Ht : globals Demo.final !! "trainer" = Some (VTrainer t))
    by (unfold t; vm_compute; reflexivity).
  assert (Hs : match lib_train (Library := Demo.library)
                        (environ Demo.final) t (fs Demo.final) with
                | Some _ => true
                | None => false
                end = true) by (vm_compute; reflexivity).
  destruct (lib_train (Library := Demo.library) (environ Demo.final) t
              (fs Demo.final)) as [[t1 f1]|] eqn:E; [|discriminate Hs].
  exists t, t1, f1. split; [exact Ht|]. split; [exact E|].
  eapply (train_cell_twice (L := Demo.library) Demo.final _ _ t t1 f1
            (surjective_pairing _) Ht E).
Defined.
